(** * SpotWx: a shallow embedding of [spotwx.py]

    The module requests a forecast page from SpotWx, scrapes the
    [aDataSet] array out of the returned HTML and saves it as a csv file.
    The embedding follows the four methods of the [SpotWx] class:
    [_verify_inputs], [_create_url], [_get_csv] and [getSpotWx], and the
    [__main__] block. *)

From Stdlib Require Import ZArith QArith Qabs Qround Bool List Ascii String Lia.
From Stdlib Require Import Floats DecimalString.
Import ListNotations.

Local Open Scope string_scope.
Local Open Scope Z_scope.

(** ** Python strings *)

Module Str.

(** [s[len(p):]] when [s.startswith(p)]. *)
Fixpoint strip_prefix (p s : string) : option string :=
  match p, s with
  | EmptyString, _ => Some s
  | String a p', String b s' => if Ascii.eqb a b then strip_prefix p' s' else None
  | String _ _, EmptyString => None
  end.

(** [s.startswith(p)] *)
Definition startswith (p s : string) : bool :=
  match strip_prefix p s with Some _ => true | None => false end.

Definition rev (s : string) : string :=
  string_of_list_ascii (List.rev (list_ascii_of_string s)).

(** [s.endswith(p)] *)
Definition endswith (p s : string) : bool := startswith (rev p) (rev s).

(** [p in s] for strings: is [p] a substring of [s]? *)
Fixpoint contains (p s : string) : bool :=
  startswith p s ||
  match s with
  | EmptyString => false
  | String _ s' => contains p s'
  end.

(** [s.partition(p)]: the text before and after the leftmost occurrence
    of [p] in [s]. *)
Fixpoint cut (p s : string) : option (string * string) :=
  match strip_prefix p s with
  | Some r => Some (EmptyString, r)
  | None =>
      match s with
      | EmptyString => None
      | String a s' =>
          match cut p s' with
          | Some (l, r) => Some (String a l, r)
          | None => None
          end
      end
  end.

(** [s.split(c)] for a one-character separator. *)
Fixpoint split (c : ascii) (s : string) : list string :=
  match s with
  | EmptyString => [EmptyString]
  | String a s' =>
      if Ascii.eqb a c then EmptyString :: split c s'
      else match split c s' with
           | x :: xs => String a x :: xs
           | [] => [String a EmptyString]
           end
  end.

(** [sep.join(l)] *)
Fixpoint join (sep : string) (l : list string) : string :=
  match l with
  | [] => EmptyString
  | [x] => x
  | x :: xs => x ++ sep ++ join sep xs
  end.

(** [s.replace(a, b)] for one-character [a] and [b]. *)
Fixpoint replace (a b : ascii) (s : string) : string :=
  match s with
  | EmptyString => EmptyString
  | String c s' => String (if Ascii.eqb c a then b else c) (replace a b s')
  end.

Fixpoint forallb (f : ascii -> bool) (s : string) : bool :=
  match s with
  | EmptyString => true
  | String a s' => f a && forallb f s'
  end.

Fixpoint repeat (a : ascii) (n : nat) : string :=
  match n with
  | O => EmptyString
  | S n' => String a (repeat a n')
  end.

End Str.

(** ** Python floats: [repr] of an IEEE binary64 value

    CPython prints a float as the shortest decimal string that reads back
    as the same float, the nearest to it among the shortest, and lays the
    digits out in fixed or exponent notation.  Floats are Rocq's primitive
    binary64 values; the digits are found with exact rational
    arithmetic. *)

Module PyFloat.

(** Decimal digits of a positive number. *)
Definition digits (p : positive) : string :=
  NilEmpty.string_of_uint (Pos.to_uint p).

Definition digits_Z (z : Z) : string :=
  match z with
  | Zpos p => digits p
  | _ => "0"
  end.

Definition pow10 (k : Z) : Q := Qpower (10 # 1) k.
Definition pow2 (k : Z) : Q := Qpower (2 # 1) k.

(** The [p] with [10^p <= v < 10^(p+1)], searched from [p = 0]. *)
Fixpoint log10_up (fuel : nat) (v : Q) (p : Z) : Z :=
  match fuel with
  | O => p
  | S f => if Qle_bool (pow10 (p + 1)) v then log10_up f v (p + 1) else p
  end.

Fixpoint log10_down (fuel : nat) (v : Q) (p : Z) : Z :=
  match fuel with
  | O => p
  | S f => if Qle_bool (pow10 p) v then p else log10_down f v (p - 1)
  end.

Definition log10_floor (v : Q) : Z :=
  if Qle_bool 1 v then log10_up 400 v 0 else log10_down 400 v (-1).

Definition Qlt_bool (a b : Q) : bool := negb (Qle_bool b a).

(** The rounding interval of the float [m * 2^e]: every real in it reads
    back as this float.  Its ends are half way to the neighbouring
    floats, and belong to it when [m] is even (round half to even). *)
Definition interval (m : positive) (e : Z) : Q * Q :=
  let v := (inject_Z (Zpos m) * pow2 e)%Q in
  let up := (inject_Z (Zpos m + 1) * pow2 e)%Q in
  let down :=
    if Pos.eqb m 4503599627370496 && Z.ltb (-1074) e
    then (inject_Z (2 * Zpos m - 1) * pow2 (e - 1))%Q
    else (inject_Z (Zpos m - 1) * pow2 e)%Q in
  (((down + v) / 2)%Q, ((v + up) / 2)%Q).

Definition inside (m : positive) (e : Z) (x : Q) : bool :=
  let '(lo, hi) := interval m e in
  if Z.even (Zpos m) then Qle_bool lo x && Qle_bool x hi
  else Qlt_bool lo x && Qlt_bool x hi.

Definition Qdist (a b : Q) : Q := Qabs (a - b).

(** The [n]-digit decimals around [v]: [d * 10^k] and [(d+1) * 10^k]. *)
Definition candidate (m : positive) (e : Z) (n : Z) : option (Z * Z) :=
  let v := (inject_Z (Zpos m) * pow2 e)%Q in
  let k := log10_floor v - n + 1 in
  let d := Qfloor (v / pow10 k) in
  let lo := (inject_Z d * pow10 k)%Q in
  let hi := (inject_Z (d + 1) * pow10 k)%Q in
  match inside m e lo, inside m e hi with
  | true, true =>
      match Qcompare (Qdist v lo) (Qdist v hi) with
      | Lt => Some (d, k)
      | Gt => Some (d + 1, k)
      | Eq => if Z.even d then Some (d, k) else Some (d + 1, k)
      end
  | true, false => Some (d, k)
  | false, true => Some (d + 1, k)
  | false, false => None
  end.

(** The shortest digit string that reads back as the float: the first
    length, from [n] on, with a decimal in the rounding interval.
    Seventeen digits always identify a binary64 value. *)
Fixpoint shortest (fuel : nat) (m : positive) (e : Z) (n : Z) : Z * Z :=
  match fuel with
  | O => (Zpos m, e)
  | S f =>
      match candidate m e n with
      | Some dk => dk
      | None => shortest f m e (n + 1)
      end
  end.

Fixpoint strip_zeros (fuel : nat) (d k : Z) : Z * Z :=
  match fuel with
  | O => (d, k)
  | S f => if (0 <? d) && (d mod 10 =? 0) then strip_zeros f (d / 10) (k + 1)
           else (d, k)
  end.

Definition zeros (n : Z) : string := Str.repeat "0"%char (Z.to_nat n).

(** [format_float_short] with format code ['r']: the digits [ds] with the
    decimal point after the first [decpt] of them. *)
Definition layout (ds : string) (decpt : Z) : string :=
  let n := Z.of_nat (length ds) in
  if (decpt <=? -4) || (16 <? decpt) then
    let x := decpt - 1 in
    substring 0 1 ds
    ++ (if 1 <? n then "." ++ substring 1 (length ds) ds else EmptyString)
    ++ "e" ++ (if x <? 0 then "-" else "+")
    ++ (if Z.abs x <? 10 then "0" else EmptyString) ++ digits_Z (Z.abs x)
  else if decpt <=? 0 then "0." ++ zeros (- decpt) ++ ds
  else if n <=? decpt then ds ++ zeros (decpt - n) ++ ".0"
  else substring 0 (Z.to_nat decpt) ds ++ "."
       ++ substring (Z.to_nat decpt) (length ds) ds.

Definition repr_finite (m : positive) (e : Z) : string :=
  let '(d, k) := shortest 17 m e 1 in
  let '(d, k) := strip_zeros 20 d k in
  let ds := digits_Z d in
  layout ds (Z.of_nat (length ds) + k).

(** [repr(x)] for a float [x]. *)
Definition repr (x : float) : string :=
  match Prim2SF x with
  | S754_zero s => if s then "-0.0" else "0.0"
  | S754_infinity s => if s then "-inf" else "inf"
  | S754_nan => "nan"
  | S754_finite s m e => (if s then "-" else EmptyString) ++ repr_finite m e
  end.

(** [bool(x)]: a float is false exactly when it equals zero. *)
Definition truthy (x : float) : bool := negb (PrimFloat.eqb x 0%float).

End PyFloat.


(** ** Python values *)

(** The constructor arguments are not typed at run time: [__main__] passes
    strings where the class expects floats, so fields hold tagged values. *)
Inductive pyval : Type :=
| PyNone
| PyBool (b : bool)
| PyInt (z : Z)
| PyFloat (x : float)
| PyStr (s : string).

(** [bool(v)], the test of [if v:]. *)
Definition truthy (v : pyval) : bool :=
  match v with
  | PyNone => false
  | PyBool b => b
  | PyInt z => negb (z =? 0)
  | PyFloat x => PyFloat.truthy x
  | PyStr s => negb (String.eqb s EmptyString)
  end.

Definition int_str (z : Z) : string :=
  match z with
  | Z0 => "0"
  | Zpos p => PyFloat.digits p
  | Zneg p => "-" ++ PyFloat.digits p
  end.

(** [str(v)], what an f-string field [{v}] inserts. *)
Definition str (v : pyval) : string :=
  match v with
  | PyNone => "None"
  | PyBool b => if b then "True" else "False"
  | PyInt z => int_str z
  | PyFloat x => PyFloat.repr x
  | PyStr s => s
  end.

Definition isinstance_str (v : pyval) : bool :=
  match v with PyStr _ => true | _ => false end.

Definition isinstance_float (v : pyval) : bool :=
  match v with PyFloat _ => true | _ => false end.

(** [v.endswith(suffix)] on a value known to be a [str]. *)
Definition endswith (v : pyval) (suffix : string) : bool :=
  match v with PyStr s => Str.endswith suffix s | _ => false end.

(** [v in l] for a list [l] of strings. *)
Definition in_list (v : pyval) (l : list string) : bool :=
  match v with PyStr s => existsb (String.eqb s) l | _ => false end.

(** [d.get(k, None)] for a dict [d] with string keys and string values. *)
Fixpoint lookup (k : string) (d : list (string * string)) : option string :=
  match d with
  | [] => None
  | (k', v) :: d' => if String.eqb k k' then Some v else lookup k d'
  end.

Definition dict_get (d : list (string * string)) (k : pyval) : pyval :=
  match k with
  | PyStr s => match lookup s d with Some v => PyStr v | None => PyNone end
  | _ => PyNone
  end.

Definition keys (d : list (string * string)) : list string := map fst d.

Definition quote : string := String (ascii_of_nat 39) EmptyString.
Definition dquote : string := String (ascii_of_nat 34) EmptyString.
Definition newline : string := String (ascii_of_nat 10) EmptyString.

(** [repr] of a string without quotes, backslashes or control characters,
    as all strings of the registries are. *)
Definition repr_str (s : string) : string := quote ++ s ++ quote.

(** [str(l)] of a list of strings. *)
Definition list_str (l : list string) : string :=
  "[" ++ Str.join ", " (map repr_str l) ++ "]".

(** ** Exceptions and the world *)

(** The exceptions a run can end in: those the code and the decoder raise
    by name, and any other one ([OSError], [UnicodeEncodeError], ...) by
    the name of its class and its message. *)
Inductive exn : Type :=
| TypeError (msg : string)
| ValueError (msg : string)
| AttributeError (msg : string)
| JSONDecodeError
| RequestException
| Exception (name msg : string).

Inductive outcome (A : Type) : Type :=
| Return (a : A)
| Raise (e : exn).
Arguments Return {A} a.
Arguments Raise {A} e.

(** What a run can touch outside the object: the GET requests sent, the
    lines printed, the files written (latest first).  A file is listed
    under the name of the file that [open] gave for its path (see
    [open_w] below), so that two spellings of one path are one entry. *)
Record World : Type := mkWorld {
  requests : list string;
  stdout : list string;
  files : list (string * string)
}.

Definition empty_world : World := mkWorld [] [] [].

(** ** The [SpotWx] object *)

(** [model] and [url] are attributes that [__init__] does not create
    ([__init__] sets [URL], in capitals): they exist once [_create_url]
    has assigned them. *)
Record SpotWx : Type := mkSpotWx {
  csv_path : pyval;
  model_request : pyval;
  lat : pyval;
  lon : pyval;
  timezone : pyval;
  display : pyval;
  URL : pyval;
  title : pyval;
  zone : pyval;
  model : option pyval;
  url : option string
}.

Definition model_dict : list (string * string) :=
  [ ("hrdps", "hrdps_1km_west");
    ("hrdps_continental", "hrdps_continental");
    ("rdps", "rdps_10km");
    ("gdps", "gem_glb_15km");
    ("geps", "geps_0p5_raw");
    ("rap", "rap_awp");
    ("nam", "nam_awphys");
    ("sref", "sref_pgrb");
    ("gfs", "gfs_pgrb2");
    ("gfs_uv_index", "gfs_uv");
    ("short_meteocode", "meteocode");
    ("ext_meteocode", "meteocode") ].

Definition title_dict : list (string * string) :=
  [ ("short_meteocode", "FPVR14");
    ("ext_meteocode", "FPVR54") ].

Definition timezone_list : list string :=
  [ "America/Vancouver"; "America/Edmonton"; "America/Regina"; "America/Winnipeg";
    "America/Toronto"; "America/Montreal"; "America/St_Johns"; "America/Halifax";
    "America/Goose_Bay"; "America/Whitehorse"; "America/Yellowknife";
    "America/Rankin_Inlet"; "America/Iqaluit"; "America/Cambridge_Bay";
    "America/Coral_Harbour" ].

Definition display_list : list string := [ "table"; "table_prometheus" ].

Definition default_display : pyval := PyStr "table_prometheus".

(** [SpotWx(csv_path, model_request, lat, lon, timezone, display)] *)
Definition __init__ (csv_path model_request lat lon timezone display : pyval)
  : SpotWx :=
  {| csv_path := csv_path;
     model_request := model_request;
     lat := lat;
     lon := lon;
     timezone := timezone;
     display := display;
     URL := PyNone;
     title := PyNone;
     zone := PyNone;
     model := None;
     url := None |}.

(** ** Methods run in a state and exception monad

    A method reads and updates its object and the world; an exception
    ends the run and leaves both as they were when it was raised. *)

Definition state : Type := (SpotWx * World)%type.

Definition M (A : Type) : Type := state -> outcome A * state.

Definition ret {A : Type} (a : A) : M A := fun st => (Return a, st).

Definition raise {A : Type} (e : exn) : M A := fun st => (Raise e, st).

Definition bind {A B : Type} (m : M A) (k : A -> M B) : M B :=
  fun st =>
    match m st with
    | (Return a, st') => k a st'
    | (Raise e, st') => (Raise e, st')
    end.

Declare Scope py_scope.
Delimit Scope py_scope with py.
Notation "x <- m ;; k" := (bind m (fun x => k))
  (at level 61, m at next level, right associativity) : py_scope.
Notation "m ;; k" := (bind m (fun _ => k))
  (at level 61, right associativity) : py_scope.
Local Open Scope py_scope.

Definition get_self : M SpotWx := fun st => (Return (fst st), st).

Definition update (f : SpotWx -> SpotWx) : M unit :=
  fun st => (Return tt, (f (fst st), snd st)).

Definition set_model (v : pyval) (self : SpotWx) : SpotWx :=
  mkSpotWx (csv_path self) (model_request self) (lat self) (lon self)
    (timezone self) (display self) (URL self) (title self) (zone self)
    (Some v) (url self).

Definition set_title (v : pyval) (self : SpotWx) : SpotWx :=
  mkSpotWx (csv_path self) (model_request self) (lat self) (lon self)
    (timezone self) (display self) (URL self) v (zone self)
    (model self) (url self).

Definition set_url (u : string) (self : SpotWx) : SpotWx :=
  mkSpotWx (csv_path self) (model_request self) (lat self) (lon self)
    (timezone self) (display self) (URL self) (title self) (zone self)
    (model self) (Some u).

Definition no_attribute (name : string) : exn :=
  AttributeError ("'SpotWx' object has no attribute " ++ repr_str name).

(** [self.model] and [self.url], read. *)
Definition attr_model : M pyval :=
  fun st => match model (fst st) with
            | Some v => (Return v, st)
            | None => (Raise (no_attribute "model"), st)
            end.

Definition attr_url : M string :=
  fun st => match url (fst st) with
            | Some u => (Return u, st)
            | None => (Raise (no_attribute "url"), st)
            end.

(** [self.url += s] *)
Definition url_add (s : string) : M unit :=
  u <- attr_url ;; update (set_url (u ++ s)).

(** [print(line)] *)
Definition print (line : string) : M unit :=
  fun st =>
    let w := snd st in
    (Return tt, (fst st, mkWorld (requests w) (stdout w ++ [line]) (files w))).

Definition when (b : bool) (m : M unit) : M unit := if b then m else ret tt.

(** *** Error messages of [_verify_inputs] *)

Definition parameter (name rest : string) : string :=
  "The " ++ dquote ++ name ++ dquote ++ " input parameter " ++ rest.

Definition must_be_str (name : string) : exn :=
  TypeError (parameter name "must be a str datatype").

Definition must_be_float (name : string) : exn :=
  ValueError (parameter name "must be a float datatype").

Definition must_be_csv : exn :=
  ValueError (parameter "csv_path"
    ("must be a path to a csv file, including a " ++ dquote ++ ".csv" ++ dquote
     ++ " extension")).

Definition must_be_one_of (name : string) (l : list string) : exn :=
  ValueError (parameter name "must be one of the following values:"
              ++ newline ++ list_str l).

(** *** [SpotWx._verify_inputs] *)
Definition _verify_inputs : M unit :=
  self <- get_self ;;
  (* csv_path *)
  (if negb (isinstance_str (csv_path self)) then raise (must_be_str "csv_path")
   else if negb (endswith (csv_path self) ".csv") then raise must_be_csv
   else ret tt) ;;
  (* model_request *)
  (if negb (isinstance_str (model_request self))
   then raise (must_be_str "model_request")
   else if negb (in_list (model_request self) (keys model_dict))
   then raise (must_be_one_of "model_request" (keys model_dict))
   else ret tt) ;;
  (* lat *)
  (if negb (isinstance_float (lat self)) then raise (must_be_float "lat")
   else ret tt) ;;
  (* long *)
  (if negb (isinstance_float (lon self)) then raise (must_be_float "lon")
   else ret tt) ;;
  (* timezone *)
  (if negb (isinstance_str (timezone self)) then raise (must_be_str "timezone")
   else if negb (in_list (timezone self) timezone_list)
   then raise (must_be_one_of "timezone" timezone_list)
   else ret tt) ;;
  (* display *)
  (if negb (isinstance_str (display self)) then raise (must_be_str "display")
   else if negb (in_list (display self) display_list)
   then raise (must_be_one_of "display" display_list)
   else ret tt) ;;
  ret tt.

(** *** [SpotWx._create_url] *)

Definition base_url : string := "https://spotwx.com/products/grib_index.php?".

Definition _create_url : M unit :=
  self <- get_self ;;
  update (set_model (dict_get model_dict (model_request self))) ;;
  update (set_title (dict_get title_dict (model_request self))) ;;
  update (set_url base_url) ;;
  self <- get_self ;;
  model <- attr_model ;;
  when (truthy model) (url_add ("model=" ++ str model)) ;;
  when (truthy (title self)) (url_add ("&title=" ++ str (title self))) ;;
  when (truthy (lat self)) (url_add ("&lat=" ++ str (lat self))) ;;
  when (truthy (lon self)) (url_add ("&lon=" ++ str (lon self))) ;;
  when (truthy (zone self)) (url_add ("&zone=" ++ str (zone self))) ;;
  when (truthy (timezone self)) (url_add ("&tz=" ++ str (timezone self))) ;;
  when (truthy (display self)) (url_add ("&display=" ++ str (display self))) ;;
  ret tt.

(** The URL an object holds after [_create_url] ran on it. *)
Definition created_url (self : SpotWx) (w : World) : option string :=
  url (fst (snd (_create_url (self, w)))).

(** ** The page: BeautifulSoup trees *)

(** A parsed document: tags with their children, and strings. *)
#[warnings="-register-all"]
Inductive node : Type :=
| Text (s : string)
| Tag (name : string) (children : list node).

(** [tag.descendants]: every node below [n], in document order. *)
Fixpoint descendants (n : node) : list node :=
  match n with
  | Text _ => []
  | Tag _ cs =>
      (fix below (l : list node) : list node :=
         match l with
         | [] => []
         | c :: l' => c :: descendants c ++ below l'
         end) cs
  end.

(** [tag.string]: the string of a tag whose only child is a string, or
    the [.string] of its only child; [None] otherwise. *)
Fixpoint node_string (n : node) : option string :=
  match n with
  | Text s => Some s
  | Tag _ [c] => node_string c
  | Tag _ _ => None
  end.

(** Does [soup.find('script', text=re.compile(pattern))] accept [n]?  The
    pattern is plain text, so [pattern.search] is a substring test. *)
Definition matches_script (pattern : string) (n : node) : bool :=
  match n with
  | Text _ => false
  | Tag name _ =>
      String.eqb name "script" &&
      match node_string n with
      | Some s => Str.contains pattern s
      | None => false
      end
  end.

(** [soup.find('script', text=re.compile(pattern))] on the document whose
    top-level nodes are [soup]. *)
Definition soup_find (pattern : string) (soup : list node) : option node :=
  List.find (matches_script pattern) (descendants (Tag "[document]" soup)).

(** ** The array literal *)

(** [re.search(r'var aDataSet = (\[.*?\]);', s, re.DOTALL)], group 1: at the
    leftmost place where [var aDataSet = [] starts a match, the text from
    that bracket to the first []] that a semicolon follows. *)
Fixpoint search_aDataSet (s : string) : option string :=
  let here :=
    match Str.strip_prefix "var aDataSet = [" s with
    | Some r =>
        match Str.cut "];" r with
        | Some (body, _) => Some ("[" ++ body ++ "]")
        | None => None
        end
    | None => None
    end in
  match here with
  | Some g => Some g
  | None =>
      match s with
      | EmptyString => None
      | String _ s' => search_aDataSet s'
      end
  end.

(** ** [json.loads]

    The decoder of the [json] module.  A text is the string of the bytes
    of its UTF-8 encoding, as the csv file will hold it.  Numbers keep
    their text, since no value of theirs is computed here (nor is the
    limit that the interpreter puts on the digits of an integer
    described).  A string with
    a surrogate that has no partner, which no UTF-8 text can hold, is a
    value of its own, [JSurrogates], with a surrogate written as the
    three bytes that the encoding would give it. *)

#[warnings="-register-all"]
Inductive json : Type :=
| JNull
| JBool (b : bool)
| JNumber (lexeme : string)
| JString (s : string)
| JSurrogates (s : string)
| JArray (items : list json)
| JObject (members : list (string * json)).

Module Json.

Definition obind {A B : Type} (m : outcome A) (k : A -> outcome B) : outcome B :=
  match m with
  | Return a => k a
  | Raise e => Raise e
  end.

Definition is_ws (c : ascii) : bool :=
  let n := nat_of_ascii c in
  Nat.eqb n 32 || Nat.eqb n 9 || Nat.eqb n 10 || Nat.eqb n 13.

Fixpoint skip_ws (s : string) : string :=
  match s with
  | String c s' => if is_ws c then skip_ws s' else s
  | EmptyString => s
  end.

Definition is_digit (c : ascii) : bool :=
  let n := nat_of_ascii c in Nat.leb 48 n && Nat.leb n 57.

(** The longest prefix of digits, and the rest. *)
Fixpoint span_digits (s : string) : string * string :=
  match s with
  | String c s' =>
      if is_digit c then let '(d, r) := span_digits s' in (String c d, r)
      else (EmptyString, s)
  | EmptyString => (EmptyString, s)
  end.

(** A backslash escape of one character. *)
Definition unescape (c : ascii) : option ascii :=
  let n := nat_of_ascii c in
  if Nat.eqb n 34 then Some c                       (* quote *)
  else if Nat.eqb n 92 then Some c                  (* backslash *)
  else if Nat.eqb n 47 then Some c                  (* slash *)
  else if Nat.eqb n 98 then Some (ascii_of_nat 8)   (* b *)
  else if Nat.eqb n 102 then Some (ascii_of_nat 12) (* f *)
  else if Nat.eqb n 110 then Some (ascii_of_nat 10) (* n *)
  else if Nat.eqb n 114 then Some (ascii_of_nat 13) (* r *)
  else if Nat.eqb n 116 then Some (ascii_of_nat 9)  (* t *)
  else None.

Definition hex_digit (c : ascii) : option N :=
  let n := N_of_ascii c in
  if N.leb 48 n && N.leb n 57 then Some (n - 48)%N
  else if N.leb 65 n && N.leb n 70 then Some (n - 55)%N
  else if N.leb 97 n && N.leb n 102 then Some (n - 87)%N
  else None.

Definition hex4 (a b c d : ascii) : option N :=
  match hex_digit a, hex_digit b, hex_digit c, hex_digit d with
  | Some x, Some y, Some z, Some t => Some (((x * 16 + y) * 16 + z) * 16 + t)%N
  | _, _, _, _ => None
  end.

(** The UTF-8 bytes of a code point; a surrogate gets the three bytes of
    its range. *)
Definition utf8 (c : N) : string :=
  let byte (n : N) (rest : string) := String (ascii_of_N n) rest in
  if N.ltb c 128 then byte c EmptyString
  else if N.ltb c 2048 then
    byte (192 + c / 64)%N (byte (128 + c mod 64)%N EmptyString)
  else if N.ltb c 65536 then
    byte (224 + c / 4096)%N
      (byte (128 + (c / 64) mod 64)%N (byte (128 + c mod 64)%N EmptyString))
  else
    byte (240 + c / 262144)%N
      (byte (128 + (c / 4096) mod 64)%N
         (byte (128 + (c / 64) mod 64)%N (byte (128 + c mod 64)%N EmptyString))).

Definition is_high (c : N) : bool := N.leb 55296 c && N.leb c 56319.
Definition is_low (c : N) : bool := N.leb 56320 c && N.leb c 57343.

(** The code point of a pair of surrogates. *)
Definition join_surrogates (high low : N) : N :=
  (65536 + (high - 55296) * 1024 + (low - 56320))%N.

(** The decoded text so far: whether a surrogate without a partner was
    met, the bytes, and the text after the closing quote. *)
Definition add (lone : bool) (bytes : string) (m : outcome (bool * string * string))
  : outcome (bool * string * string) :=
  obind m (fun '(l, r, rest) => Return (lone || l, bytes ++ r, rest)).

(** [scanstring] in strict mode, from after the opening quote.  A [\u]
    escape gives the character of its four hexadecimal digits; a high
    surrogate followed by the escape of a low one gives the character of
    the pair. *)
Fixpoint scanstring (s : string) : outcome (bool * string * string) :=
  match s with
  | EmptyString => Raise JSONDecodeError
  | String c s' =>
      let n := nat_of_ascii c in
      if Nat.eqb n 34 then Return (false, EmptyString, s')
      else if Nat.eqb n 92 then
        match s' with
        | EmptyString => Raise JSONDecodeError
        | String e s'' =>
            match unescape e with
            | Some c' => add false (String c' EmptyString) (scanstring s'')
            | None =>
                if Nat.eqb (nat_of_ascii e) 117 then
                  match s'' with
                  | String h1 (String h2 (String h3 (String h4 t))) =>
                      match hex4 h1 h2 h3 h4 with
                      | Some code =>
                          if is_high code then
                            match t with
                            | String b (String u (String k1 (String k2
                                (String k3 (String k4 t'))))) =>
                                if Nat.eqb (nat_of_ascii b) 92
                                   && Nat.eqb (nat_of_ascii u) 117 then
                                  match hex4 k1 k2 k3 k4 with
                                  | Some low =>
                                      if is_low low then
                                        add false (utf8 (join_surrogates code low))
                                          (scanstring t')
                                      else add true (utf8 code) (scanstring t)
                                  | None => Raise JSONDecodeError
                                  end
                                else add true (utf8 code) (scanstring t)
                            | _ => add true (utf8 code) (scanstring t)
                            end
                          else add (is_low code) (utf8 code) (scanstring t)
                      | None => Raise JSONDecodeError
                      end
                  | _ => Raise JSONDecodeError
                  end
                else Raise JSONDecodeError
            end
        end
      else if Nat.ltb n 32 then Raise JSONDecodeError
      else add false (String c EmptyString) (scanstring s')
  end.

(** The value of a decoded string. *)
Definition text_value (lone : bool) (s : string) : json :=
  if lone then JSurrogates s else JString s.

(** [NUMBER_RE]: an integer part without a leading zero, after an
    optional minus sign, then an optional fraction and an optional
    exponent; the text matched at the start of [s], and the rest. *)
Definition scan_int (s : string) : option (string * string) :=
  match s with
  | String c s' =>
      if Nat.eqb (nat_of_ascii c) 48 then Some (String c EmptyString, s')
      else if is_digit c then
        let '(d, r) := span_digits s' in Some (String c d, r)
      else None
  | EmptyString => None
  end.

Definition scan_frac (s : string) : string * string :=
  match s with
  | String c s' =>
      if Nat.eqb (nat_of_ascii c) 46 then
        match span_digits s' with
        | (EmptyString, _) => (EmptyString, s)
        | (d, r) => (String c d, r)
        end
      else (EmptyString, s)
  | EmptyString => (EmptyString, s)
  end.

Definition scan_exp (s : string) : string * string :=
  match s with
  | String c s' =>
      if Nat.eqb (nat_of_ascii c) 101 || Nat.eqb (nat_of_ascii c) 69 then
        let '(sign, s1) :=
          match s' with
          | String g s'' =>
              if Nat.eqb (nat_of_ascii g) 45 || Nat.eqb (nat_of_ascii g) 43
              then (String g EmptyString, s'') else (EmptyString, s')
          | EmptyString => (EmptyString, s')
          end in
        match span_digits s1 with
        | (EmptyString, _) => (EmptyString, s)
        | (d, r) => (String c (sign ++ d), r)
        end
      else (EmptyString, s)
  | EmptyString => (EmptyString, s)
  end.

Definition match_number (s : string) : option (string * string) :=
  let signed :=
    match s with
    | String c s' =>
        if Nat.eqb (nat_of_ascii c) 45 then
          match scan_int s' with
          | Some (i, r) => Some (String c i, r)
          | None => None
          end
        else scan_int s
    | EmptyString => None
    end in
  match signed with
  | Some (i, r) =>
      let '(f, r1) := scan_frac r in
      let '(x, r2) := scan_exp r1 in
      Some (i ++ f ++ x, r2)
  | None => None
  end.

(** A word of the grammar at the start of [s]. *)
Definition keyword (w : string) (s : string) : option string :=
  Str.strip_prefix w s.

Definition constant (s : string) : option (json * string) :=
  match keyword "null" s with
  | Some r => Some (JNull, r)
  | None =>
  match keyword "true" s with
  | Some r => Some (JBool true, r)
  | None =>
  match keyword "false" s with
  | Some r => Some (JBool false, r)
  | None =>
  match match_number s with
  | Some (n, r) => Some (JNumber n, r)
  | None =>
  match keyword "NaN" s with
  | Some r => Some (JNumber "NaN", r)
  | None =>
  match keyword "Infinity" s with
  | Some r => Some (JNumber "Infinity", r)
  | None =>
  match keyword "-Infinity" s with
  | Some r => Some (JNumber "-Infinity", r)
  | None => None
  end end end end end end end.

(** [scan_once], [JSONArray] and [JSONObject].  Each call that recurses
    has consumed a character, so [fuel] above the length of the text is
    never used up.  The recursion limit of the interpreter, which only a
    text nested about a thousand deep reaches, is not described; such
    data is no list of rows of strings. *)
Fixpoint scan_once (fuel : nat) (s : string) : outcome (json * string) :=
  match fuel with
  | O => Raise (Exception "RecursionError" "maximum recursion depth exceeded")
  | S f =>
      match s with
      | EmptyString => Raise JSONDecodeError
      | String c s' =>
          let n := nat_of_ascii c in
          if Nat.eqb n 34 then
            obind (scanstring s') (fun '(lone, x, r) => Return (text_value lone x, r))
          else if Nat.eqb n 123 then
            match skip_ws s' with
            | String c1 r1 =>
                if Nat.eqb (nat_of_ascii c1) 125 then Return (JObject [], r1)
                else obind (members f (skip_ws s'))
                       (fun '(l, r) => Return (JObject l, r))
            | EmptyString => Raise JSONDecodeError
            end
          else if Nat.eqb n 91 then
            match skip_ws s' with
            | String c1 r1 =>
                if Nat.eqb (nat_of_ascii c1) 93 then Return (JArray [], r1)
                else obind (items f (skip_ws s'))
                       (fun '(l, r) => Return (JArray l, r))
            | EmptyString => Raise JSONDecodeError
            end
          else
            match constant s with
            | Some vr => Return vr
            | None => Raise JSONDecodeError
            end
      end
  end

(** The loop of [JSONArray], from the start of a value. *)
with items (fuel : nat) (s : string) : outcome (list json * string) :=
  match fuel with
  | O => Raise (Exception "RecursionError" "maximum recursion depth exceeded")
  | S f =>
      obind (scan_once f s) (fun '(v, r) =>
        match skip_ws r with
        | String c r1 =>
            if Nat.eqb (nat_of_ascii c) 93 then Return ([v], r1)
            else if Nat.eqb (nat_of_ascii c) 44 then
              obind (items f (skip_ws r1)) (fun '(l, r2) => Return (v :: l, r2))
            else Raise JSONDecodeError
        | EmptyString => Raise JSONDecodeError
        end)
  end

(** The loop of [JSONObject], from the quote that opens a key. *)
with members (fuel : nat) (s : string) : outcome (list (string * json) * string) :=
  match fuel with
  | O => Raise (Exception "RecursionError" "maximum recursion depth exceeded")
  | S f =>
      match s with
      | String q s1 =>
          if Nat.eqb (nat_of_ascii q) 34 then
            obind (scanstring s1) (fun '(_, k, r) =>
              match skip_ws r with
              | String c r1 =>
                  if Nat.eqb (nat_of_ascii c) 58 then
                    obind (scan_once f (skip_ws r1)) (fun '(v, r2) =>
                      match skip_ws r2 with
                      | String c2 r3 =>
                          if Nat.eqb (nat_of_ascii c2) 125 then Return ([(k, v)], r3)
                          else if Nat.eqb (nat_of_ascii c2) 44 then
                            obind (members f (skip_ws r3))
                              (fun '(l, r4) => Return ((k, v) :: l, r4))
                          else Raise JSONDecodeError
                      | EmptyString => Raise JSONDecodeError
                      end)
                  else Raise JSONDecodeError
              | EmptyString => Raise JSONDecodeError
              end)
          else Raise JSONDecodeError
      | EmptyString => Raise JSONDecodeError
      end
  end.

(** [json.loads(s)]: one value, with white space around it and nothing
    else. *)
Definition loads (s : string) : outcome json :=
  obind (scan_once (S (length s)) (skip_ws s)) (fun '(v, r) =>
    match skip_ws r with
    | EmptyString => Return v
    | String _ _ => Raise JSONDecodeError
    end).

End Json.

(** ** [pandas]: a frame of strings and its csv text *)

(** A frame whose cells are all strings. *)
Record DataFrame : Type := mkDataFrame {
  columns : list string;
  rows : list (list string)
}.

Fixpoint traverse {A B : Type} (f : A -> option B) (l : list A) : option (list B) :=
  match l with
  | [] => Some []
  | a :: l' =>
      match f a, traverse f l' with
      | Some b, Some bs => Some (b :: bs)
      | _, _ => None
      end
  end.

Definition cell (v : json) : option string :=
  match v with JString s => Some s | _ => None end.

Definition record (v : json) : option (list string) :=
  match v with JArray cells => traverse cell cells | _ => None end.

Definition records (data : json) : option (list (list string)) :=
  match data with JArray l => traverse record l | _ => None end.

(** What [pd.DataFrame] is given: a list of rows that are lists of
    strings, one for each column, of which the frame and its csv text are
    described here; or other data (numbers, missing values, rows of
    other lengths, strings with a lone surrogate), of which they are
    not. *)
Inductive frame : Type :=
| Strings (df : DataFrame)
| Other (data : json).

(** [pd.DataFrame(data, columns=headers)].  On other data the call may
    raise; nothing happens between it and [to_csv], so how the two calls
    end on such data is asked of [pandas] in [to_csv] below. *)
Definition pd_DataFrame (data : json) (headers : list string) : frame :=
  match records data with
  | Some rs =>
      if forallb (fun r => Nat.eqb (List.length r) (List.length headers)) rs
      then Strings (mkDataFrame headers rs)
      else Other data
  | None => Other data
  end.

Module Csv.

Definition comma : ascii := ascii_of_nat 44.
Definition LF : ascii := ascii_of_nat 10.
Definition CR : ascii := ascii_of_nat 13.
Definition dquote_char : ascii := ascii_of_nat 34.

(** [csv.QUOTE_MINIMAL]: a field is quoted when it holds the delimiter,
    the quote character or a line break. *)
Definition special (c : ascii) : bool :=
  Ascii.eqb c comma || Ascii.eqb c dquote_char || Ascii.eqb c LF || Ascii.eqb c CR.

Definition needs_quotes (f : string) : bool := negb (Str.forallb (fun c => negb (special c)) f).

(** Quote characters inside a quoted field are doubled. *)
Fixpoint double_quotes (f : string) : string :=
  match f with
  | EmptyString => EmptyString
  | String c f' =>
      if Ascii.eqb c dquote_char then String c (String c (double_quotes f'))
      else String c (double_quotes f')
  end.

Definition field (f : string) : string :=
  if needs_quotes f then dquote ++ double_quotes f ++ dquote else f.

(** One row as the writer emits it, with the line terminator. *)
Definition line (r : list string) : string :=
  Str.join "," (map field r) ++ newline.

Fixpoint concat (l : list string) : string :=
  match l with
  | [] => EmptyString
  | x :: l' => x ++ concat l'
  end.

(** The text of [df.to_csv(path, index=False)]: the header, then the
    rows, without the index. *)
Definition text (df : DataFrame) : string :=
  line (columns df) ++ concat (map line (rows df)).

End Csv.

(** The file [file], once opened for writing, holds [content]: it is
    created or replaced. *)
Definition write_file (file content : string) (w : World) : World :=
  mkWorld (requests w) (stdout w)
    ((file, content) :: filter (fun f => negb (String.eqb (fst f) file)) (files w)).

Definition read_file (file : string) (w : World) : option string :=
  lookup file (files w).

Definition lift {A : Type} (o : outcome A) : M A := fun st => (o, st).

(** *** The file system and the rest of pandas *)

Section Files.

(** [open(path, 'w')]: the file that the path names, now empty, or the
    exception that [open] raises (a missing directory, no permission),
    which leaves every file as it was. *)
Variable open_w : string -> outcome string.

(** What [pd.DataFrame] and [to_csv] do where this file does not describe
    them, on other data or with a path that is neither a string nor
    [None]: the text that [to_csv] leaves in the file if it gets as far
    as opening it (all of the csv text, or the part written before an
    exception), and how the two calls end. *)
Variable pandas : frame -> pyval -> option string * outcome unit.

(** The file of [path] is opened and left with [content]; the call ends
    as [ending] says.  When [open] raises, no file is touched. *)
Definition write (path content : string) (ending : outcome unit) : M unit :=
  fun st =>
    match open_w path with
    | Return file => (ending, (fst st, write_file file content (snd st)))
    | Raise e => (Raise e, st)
    end.

(** [df.to_csv(path, index=False)]: with a path that is a string the csv
    text of a frame of strings goes to the file of that path (the text
    can always be encoded, and the write is taken to succeed once the
    file is open); with [None] pandas returns the text and writes
    nothing.  Everything else is asked of [pandas]. *)
Definition to_csv (df : frame) (path : pyval) : M unit :=
  match df, path with
  | Strings d, PyStr p => write p (Csv.text d) (Return tt)
  | Strings d, PyNone => ret tt
  | _, _ =>
      match pandas df path, path with
      | (Some content, ending), PyStr p => write p content ending
      | (_, ending), _ => lift ending
      end
  end.

End Files.

(** ** Retrieval and extraction *)

Record response : Type := mkResponse {
  status_code : Z;
  text : string
}.

Definition headers : list string :=
  [ "HOURLY"; "HOUR"; "TEMP"; "RH"; "WD"; "WS"; "PRECIP" ].

Definition saved : string := "CSV file has been saved successfully.".

Definition not_found : string :=
  "JavaScript variable " ++ dquote ++ "aDataSet" ++ dquote
  ++ " not found in the HTML content.".

Definition failed (status : Z) : string :=
  "Failed to retrieve data. Status code: " ++ int_str status.

Definition no_group : exn :=
  AttributeError "'NoneType' object has no attribute 'group'".

Section Environment.

(** The network: what [requests.get(url)] answers, or the exception it
    raises. *)
Variable requests_get : string -> outcome response.

(** [BeautifulSoup(text, 'html.parser')]: the top-level nodes of the
    parsed page. *)
Variable html_parser : string -> list node.

(** The file system and the rest of pandas, as [to_csv] takes them. *)
Variable open_w : string -> outcome string.
Variable pandas : frame -> pyval -> option string * outcome unit.

(** [requests.get(url)]: the request is sent, then answered. *)
Definition get (u : string) : M response :=
  fun st =>
    let w := snd st in
    (requests_get u, (fst st, mkWorld (requests w ++ [u]) (stdout w) (files w))).

(** *** [SpotWx._get_csv] *)
Definition _get_csv : M unit :=
  u <- attr_url ;;
  response <- get u ;;
  if status_code response =? 200 then
    let soup := html_parser (text response) in
    match soup_find "var aDataSet =" soup with
    | Some script =>
        match node_string script with
        | Some script_text =>
            match search_aDataSet script_text with
            | Some json_text =>
                let json_text :=
                  Str.replace (ascii_of_nat 39) (ascii_of_nat 34) json_text in
                data <- lift (Json.loads json_text) ;;
                let df := pd_DataFrame data headers in
                self <- get_self ;;
                to_csv open_w pandas df (csv_path self) ;;
                print saved
            | None => raise no_group
            end
        | None =>
            raise (TypeError "expected string or bytes-like object, got 'NoneType'")
        end
    | None => print not_found
    end
  else print (failed (status_code response)).

(** *** [SpotWx.getSpotWx] *)
Definition getSpotWx : M unit :=
  _verify_inputs ;;
  _create_url ;;
  _get_csv.

(** *** [__main__] *)

Definition usage : string :=
  "Six parameters are required to request a SpotWx forecast dataset (as csv):"
  ++ newline ++ "[csv_path, model_request, lat, lon, display].".

(** What the script leaves: how it ended ([sys.exit(1)] ends it with
    status 1), the object it built, if any, and the world. *)
Inductive ending : Type :=
| Finished
| Exit (status : Z)
| Uncaught (e : exn).

(** The script, run with the arguments [argv] (that is [sys.argv[1:]]). *)
Definition main (argv : list string) (w : World) : ending * option SpotWx * World :=
  match argv with
  | [_csv_path; _model_request; _lat; _lon; _timezone; _display] =>
      let self := __init__ (PyStr _csv_path) (PyStr _model_request) (PyStr _lat)
                    (PyStr _lon) (PyStr _timezone) (PyStr _display) in
      match getSpotWx (self, w) with
      | (Return _, (self', w')) => (Finished, Some self', w')
      | (Raise e, (self', w')) => (Uncaught e, Some self', w')
      end
  | _ =>
      (Exit 1, None, mkWorld (requests w) (stdout w ++ [usage]) (files w))
  end.

End Environment.

(** ** Saving where every file opens *)

(** A file system in which each path opens a file of its own, and a
    pandas that refuses whatever is not a frame of strings. *)
Definition own_file (path : string) : outcome string := Return path.

Definition refuses (df : frame) (path : pyval) : option string * outcome unit :=
  (None, Raise (ValueError "no frame of strings")).

(** The end of [_get_csv] in that file system: the frame of [data] under
    the seven headers, saved at [self.csv_path] without its index. *)
Definition save (data : json) : M unit :=
  let df := pd_DataFrame data headers in
  self <- get_self ;;
  to_csv own_file refuses df (csv_path self).

(** ** Reading a URL back: the keys of its query string *)

Module Query.

(** The text after the question mark. *)
Definition query (u : string) : string :=
  match Str.cut "?" u with
  | Some (_, q) => q
  | None => EmptyString
  end.

(** The key of one [key=value] segment. *)
Definition key (segment : string) : string :=
  match Str.cut "=" segment with
  | Some (k, _) => k
  | None => segment
  end.

(** The keys of the segments that [&] separates, in order. *)
Definition keys (u : string) : list string :=
  map key (Str.split (ascii_of_nat 38) (query u)).

End Query.

(** ** Closed forms of the methods *)

(** What one [if v: self.url += prefix + str(v)] adds. *)
Definition segment (prefix : string) (v : pyval) : string :=
  if truthy v then prefix ++ str v else EmptyString.

(** The URL that [_create_url] leaves in [self.url]. *)
Definition built_url (self : SpotWx) : string :=
  base_url
  ++ segment "model=" (dict_get model_dict (model_request self))
  ++ segment "&title=" (dict_get title_dict (model_request self))
  ++ segment "&lat=" (lat self)
  ++ segment "&lon=" (lon self)
  ++ segment "&zone=" (zone self)
  ++ segment "&tz=" (timezone self)
  ++ segment "&display=" (display self).

(** The object after [_create_url]. *)
Definition with_url (self : SpotWx) : SpotWx :=
  set_url (built_url self)
    (set_title (dict_get title_dict (model_request self))
       (set_model (dict_get model_dict (model_request self)) self)).

(** The parameters pass every test of [_verify_inputs]. *)
Definition valid (self : SpotWx) : bool :=
  isinstance_str (csv_path self) && endswith (csv_path self) ".csv"
  && isinstance_str (model_request self)
  && in_list (model_request self) (keys model_dict)
  && isinstance_float (lat self) && isinstance_float (lon self)
  && isinstance_str (timezone self) && in_list (timezone self) timezone_list
  && isinstance_str (display self) && in_list (display self) display_list.

(** The single tests of [_verify_inputs]. *)
Definition csv_path_ok (self : SpotWx) : bool :=
  isinstance_str (csv_path self) && endswith (csv_path self) ".csv".

Definition model_request_ok (self : SpotWx) : bool :=
  isinstance_str (model_request self)
  && in_list (model_request self) (keys model_dict).

Definition timezone_ok (self : SpotWx) : bool :=
  isinstance_str (timezone self) && in_list (timezone self) timezone_list.

(** The object that [__main__] builds from its arguments: all strings. *)
Definition of_argv (csv mr la lo tz d : string) : SpotWx :=
  __init__ (PyStr csv) (PyStr mr) (PyStr la) (PyStr lo) (PyStr tz) (PyStr d).

(** The error that ends a run on six command-line strings. *)
Definition argv_error (csv mr : string) : exn :=
  if negb (Str.endswith ".csv" csv) then must_be_csv
  else if negb (existsb (String.eqb mr) (keys model_dict))
       then must_be_one_of "model_request" (keys model_dict)
       else must_be_float "lat".

(** A computation that leaves the attributes of the object as they are. *)
Definition keeps_self {A : Type} (m : M A) : Prop :=
  forall st : state, fst (snd (m st)) = fst st.

(** The world after one more request and one more printed line. *)
Definition answered (u line : string) (w : World) : World :=
  mkWorld (requests w ++ [u]) (stdout w ++ [line]) (files w).

(** ** Characters and fields *)

(** [c] does not occur in [s]. *)
Definition lacks (c : ascii) (s : string) : bool :=
  Str.forallb (fun a => negb (Ascii.eqb a c)) s.

Definition backslash : ascii := ascii_of_nat 92.
Definition ampersand : ascii := ascii_of_nat 38.
Definition equals : ascii := ascii_of_nat 61.

(** Neither kind of quote occurs in the field. *)
Definition quote_free (f : string) : bool :=
  lacks (ascii_of_nat 39) f && lacks (ascii_of_nat 34) f.

Definition printable (f : string) : bool :=
  Str.forallb (fun a => Nat.leb 32 (nat_of_ascii a)) f.

(** A field that the literal carries unchanged through the scan for the
    closing bracket and through the decoder: no quote, no backslash, no
    control character, and no closing bracket before a semicolon. *)
Definition plain (f : string) : bool :=
  quote_free f && lacks backslash f && printable f && negb (Str.contains "];" f).

(** A field that the csv writer leaves unquoted and on its line. *)
Definition unquoted (f : string) : bool :=
  Str.forallb (fun c => negb (Csv.special c)) f.

(** The characters of the [repr] of a float. *)
Definition float_char (c : ascii) : bool :=
  existsb (Ascii.eqb c) (list_ascii_of_string "0123456789.-+einfa").

(** A forecast row: seven fields that all satisfy [ok]. *)
Definition forecast_row (ok : string -> bool) (r : list string) : bool :=
  Nat.eqb (List.length r) 7 && forallb ok r.

(** The field has no comma and no quote character. *)
Definition comma_and_quote_free (f : string) : bool :=
  lacks Csv.comma f && quote_free f.

(** ** The literal of a page *)

(** The array literal of a page, with [q] around each field. *)
Definition quoted (q f : string) : string := q ++ f ++ q.

Definition row_literal (q : string) (r : list string) : string :=
  "[" ++ Str.join "," (map (quoted q) r) ++ "]".

Definition array_literal (q : string) (rs : list (list string)) : string :=
  "[" ++ Str.join "," (map (row_literal q) rs) ++ "]".

(** The statement that assigns the rows [rs] to [aDataSet]. *)
Definition assignment (rs : list (list string)) : string :=
  "var aDataSet = " ++ array_literal quote rs ++ ";".

(** The decoded value of that literal. *)
Definition data_of (rs : list (list string)) : json :=
  JArray (map (fun r => JArray (map JString r)) rs).

(** The text at which the pattern of [search_aDataSet] starts a match. *)
Definition opening : string := "var aDataSet = [".

(** *** The literal as a page lays it out *)

(** White space between the parts of a literal: spaces, tabs and line
    breaks. *)
Definition blank (s : string) : bool := Str.forallb Json.is_ws s.

(** A field as it is written: the text [inner] between two quotes
    [mark] of one kind, with white space before and after. *)
Record field_layout : Type := mkField {
  lead : string;
  mark : string;
  inner : string;
  trail : string
}.

(** The field with the quote [q f] around its text. *)
Definition field_as (q : field_layout -> string) (f : field_layout) : string :=
  lead f ++ q f ++ inner f ++ q f ++ trail f.

(** A row as it is written: its fields between brackets, with commas
    between them and white space around it. *)
Record row_layout : Type := mkRow {
  row_lead : string;
  spelt : list field_layout;
  row_trail : string
}.

Definition row_as (q : field_layout -> string) (r : row_layout) : string :=
  row_lead r ++ "[" ++ Str.join "," (map (field_as q) (spelt r)) ++ "]"
  ++ row_trail r.

(** The literal: the rows between brackets, with commas between them;
    [gap] is white space after the opening bracket. *)
Definition literal_as (q : field_layout -> string) (gap : string)
           (l : list row_layout) : string :=
  "[" ++ gap ++ Str.join "," (map (row_as q) l) ++ "]".

(** The literal as the page has it, each field in its own quotes. *)
Definition literal_text (gap : string) (l : list row_layout) : string :=
  literal_as mark gap l.


(** The rows that a literal stands for. *)
Definition values (l : list row_layout) : list (list string) :=
  map (fun r => map inner (spelt r)) l.

(** The literal is well formed: white space where white space is meant,
    single or double quotes around each field, seven fields in each row,
    each of them [ok]. *)
Definition laid_out_field (ok : string -> bool) (f : field_layout) : bool :=
  blank (lead f) && blank (trail f)
  && (String.eqb (mark f) quote || String.eqb (mark f) dquote)
  && ok (inner f).

Definition laid_out_row (ok : string -> bool) (r : row_layout) : bool :=
  blank (row_lead r) && blank (row_trail r)
  && Nat.eqb (List.length (spelt r)) 7
  && forallb (laid_out_field ok) (spelt r).

Definition laid_out (ok : string -> bool) (gap : string) (l : list row_layout) : bool :=
  blank gap && forallb (laid_out_row ok) l.

(** The layout without white space and with single quotes. *)
Definition compact (rs : list (list string)) : list row_layout :=
  map (fun r => mkRow EmptyString
                  (map (fun f => mkField EmptyString quote f EmptyString) r)
                  EmptyString) rs.

(** ** Reading the csv file back *)

(** The lines of a text, without their line feeds. *)
Fixpoint drop_last_empty (l : list string) : list string :=
  match l with
  | [] => []
  | [EmptyString] => []
  | x :: l' => x :: drop_last_empty l'
  end.

Definition lines (content : string) : list string :=
  drop_last_empty (Str.split Csv.LF content).

(** The reader of the round trip: every line after the header, split on
    the comma. *)
Definition reread (content : string) : list (list string) :=
  map (Str.split Csv.comma) (tl (lines content)).

Definition header_line : string := "HOURLY,HOUR,TEMP,RH,WD,WS,PRECIP".

(** One line of the csv text, without its end. *)
Definition csv_record (r : list string) : string :=
  Str.join "," (map Csv.field r).


(** ** Query strings written from parameters *)

(** The address before the question mark. *)
Definition endpoint : string := "https://spotwx.com/products/grib_index.php".

(** A query string written from its parameters. *)
Definition pair_text (kv : string * string) : string := fst kv ++ "=" ++ snd kv.

Definition query_text (l : list (string * string)) : string :=
  Str.join "&" (map pair_text l).

(** A key holds neither [=] nor [&], a value no [&]. *)
Definition well_formed (kv : string * string) : bool :=
  lacks equals (fst kv) && lacks ampersand (fst kv) && lacks ampersand (snd kv).

(** The value of a parameter holds no [=]. *)
Definition plain_value (kv : string * string) : bool := lacks equals (snd kv).

(** The parameters of a URL, for the registry code [code], the title
    [t] if the model has one, and the coordinates. *)
Definition optional (b : bool) (kv : string * string) : list (string * string) :=
  if b then [kv] else [].

Definition parameters (code : string) (t : option string) (x y : float) (tz d : string)
  : list (string * string) :=
  [("model", code)]
  ++ match t with Some c => [("title", c)] | None => [] end
  ++ optional (PyFloat.truthy x) ("lat", PyFloat.repr x)
  ++ optional (PyFloat.truthy y) ("lon", PyFloat.repr y)
  ++ [("tz", tz); ("display", d)].

(** ** What the error messages say *)

(** The text an exception carries. *)
Definition message (e : exn) : string :=
  match e with
  | TypeError msg | ValueError msg | AttributeError msg => msg
  | JSONDecodeError | RequestException => EmptyString
  | Exception _ msg => msg
  end.

(** The message names the parameter, in double quotes. *)
Definition names (parameter : string) (e : exn) : bool :=
  Str.contains (dquote ++ parameter ++ dquote) (message e).

(** The message shows every value of [l], as Python prints a string. *)
Definition reports (l : list string) (e : exn) : bool :=
  forallb (fun k => Str.contains (repr_str k) (message e)) l.

(** The six [ValueError]s of the validator. *)
Definition value_errors : list exn :=
  [ must_be_csv;
    must_be_one_of "model_request" (keys model_dict);
    must_be_float "lat";
    must_be_float "lon";
    must_be_one_of "timezone" timezone_list;
    must_be_one_of "display" display_list ].

(** ** Inputs of the examples *)

Definition example : SpotWx :=
  __init__ (PyStr "out.csv") (PyStr "gfs") (PyFloat 51.0) (PyFloat (-114.0))
    (PyStr "America/Edmonton") (PyStr "table").

Definition example_url : string :=
  "https://spotwx.com/products/grib_index.php?model=gfs_pgrb2&lat=51.0&lon=-114.0&tz=America/Edmonton&display=table".

(** The failing input of the latitude test: a point on the equator. *)
Definition equator : SpotWx :=
  __init__ (PyStr "out.csv") (PyStr "gfs") (PyFloat 0.0) (PyFloat (-114.0))
    (PyStr "America/Edmonton") (PyStr "table").

Definition equator_url : string :=
  "https://spotwx.com/products/grib_index.php?model=gfs_pgrb2&lon=-114.0&tz=America/Edmonton&display=table".

(** The arguments of a command line whose path has no csv extension. *)
Definition argv_txt : list string :=
  [ "out.txt"; "gfs"; "51.0"; "-114.0"; "America/Edmonton"; "table" ].

Definition argv_csv : list string :=
  [ "out.csv"; "gfs"; "51.0"; "-114.0"; "America/Edmonton"; "table" ].

(** A network that is down and a parser that finds nothing. *)
Definition offline (u : string) : outcome response := Raise RequestException.
Definition no_nodes (page : string) : list node := [].

(** Objects that fail one test of the validator each. *)
Definition bad_path : SpotWx :=
  __init__ (PyStr "out.txt") (PyStr "gfs") (PyFloat 51.0) (PyFloat (-114.0))
    (PyStr "America/Edmonton") (PyStr "table").

Definition bad_model : SpotWx :=
  __init__ (PyStr "out.csv") (PyStr "ecmwf") (PyFloat 51.0) (PyFloat (-114.0))
    (PyStr "America/Edmonton") (PyStr "table").

Definition bad_lat : SpotWx :=
  __init__ (PyStr "out.csv") (PyStr "gfs") (PyInt 51) (PyFloat (-114.0))
    (PyStr "America/Edmonton") (PyStr "table").

Definition bad_lon : SpotWx :=
  __init__ (PyStr "out.csv") (PyStr "gfs") (PyFloat 51.0) (PyStr "-114.0")
    (PyStr "America/Edmonton") (PyStr "table").

Definition bad_timezone : SpotWx :=
  __init__ (PyStr "out.csv") (PyStr "gfs") (PyFloat 51.0) (PyFloat (-114.0))
    (PyStr "Europe/Paris") (PyStr "table").

Definition bad_display : SpotWx :=
  __init__ (PyStr "out.csv") (PyStr "gfs") (PyFloat 51.0) (PyFloat (-114.0))
    (PyStr "America/Edmonton") (PyStr "chart").

(** A server that answers 404, and one whose page has no data. *)
Definition gone (u : string) : outcome response :=
  Return (mkResponse 404 "Not Found").

Definition bare_page : string :=
  "<html><head><script>var x = 1;</script></head><body></body></html>".

Definition bare (u : string) : outcome response :=
  Return (mkResponse 200 bare_page).

Definition bare_soup (page : string) : list node :=
  [ Tag "html" [ Tag "head" [ Tag "script" [ Text "var x = 1;" ] ]; Tag "body" [] ] ].

(** A row whose first field holds a line feed. *)
Definition two_line_row : list string :=
  [ "10:00" ++ newline ++ "10:30"; "06:00"; "12.1"; "85"; "270"; "5"; "0.0" ].

Definition plain_row : list string :=
  [ "2024/08/06 06:00"; "06:00"; "12.1"; "85"; "270"; "5"; "0.0" ].



(** Rows without quotes that the decoder refuses: a backslash before a
    letter that is no escape, and a tab. *)
Definition backslash_row : list string :=
  [ "a\qb"; "06:00"; "12.1"; "85"; "270"; "5"; "0.0" ].

Definition tab_row : list string :=
  [ "a" ++ String (ascii_of_nat 9) "b"; "06:00"; "12.1"; "85"; "270"; "5"; "0.0" ].

Definition served (rs : list (list string)) (u : string) : outcome response :=
  Return (mkResponse 200 ("<script>" ++ assignment rs ++ "</script>")).

Definition script_soup (rs : list (list string)) (page : string) : list node :=
  [ Tag "script" [ Text (assignment rs) ] ].

(** A page whose script only mentions the variable, in a comment. *)
Definition mention_script : string := "// var aDataSet = (table removed)".

Definition mention_page (u : string) : outcome response :=
  Return (mkResponse 200 ("<script>" ++ mention_script ++ "</script>")).

Definition mention_soup (page : string) : list node :=
  [ Tag "script" [ Text mention_script ] ].

(** A valid object whose csv path lies in a directory that is missing. *)
Definition lost : SpotWx :=
  __init__ (PyStr "missing/out.csv") (PyStr "gfs") (PyFloat 51.0)
    (PyFloat (-114.0)) (PyStr "America/Edmonton") (PyStr "table").

(** A valid object for a model that has a title. *)
Definition meteocode : SpotWx :=
  __init__ (PyStr "out.csv") (PyStr "short_meteocode") (PyFloat 51.0)
    (PyFloat (-114.0)) (PyStr "America/Edmonton") (PyStr "table").

Definition meteocode_url : string :=
  "https://spotwx.com/products/grib_index.php?model=meteocode&title=FPVR14&lat=51.0&lon=-114.0&tz=America/Edmonton&display=table".





(** A file system in which the two spellings of the csv path open one
    file, and the directory [missing] does not exist. *)
Definition one_directory (path : string) : outcome string :=
  if Str.startswith "missing/" path
  then Raise (Exception "FileNotFoundError" "No such file or directory")
  else match Str.strip_prefix "./" path with
       | Some p => Return p
       | None => Return path
       end.

(** ** Sentences of the specification that do not hold as written *)

(** C3 as it is stated: whatever the six arguments, the run ends in the
    [ValueError] on [lat], with no URL built and the world untouched. *)
Definition every_run_fails_on_lat : Prop :=
  forall (requests_get : string -> outcome response)
         (html_parser : string -> list node)
         (open_w : string -> outcome string)
         (pandas : frame -> pyval -> option string * outcome unit)
         (argv : list string) (w : World),
    List.length argv = 6%nat ->
    exists self : SpotWx,
      main requests_get html_parser open_w pandas argv w
      = (Uncaught (must_be_float "lat"), Some self, w) /\
      url self = None.

(** C9 as it is stated: rows of fields without commas and quotes, saved
    and read back, come out as they were. *)
Definition round_trip_as_stated : Prop :=
  forall (rs : list (list string)) (self : SpotWx) (w : World) (path : string),
    csv_path self = PyStr path ->
    forallb (forecast_row comma_and_quote_free) rs = true ->
    exists (w' : World) (content : string),
      save (data_of rs) (self, w) = (Return tt, (self, w')) /\
      read_file path w' = Some content /\
      reread content = rs.

(** C7 as it is stated: the first script block that holds the assignment
    has it first, with rows of seven fields without quotes; then the run
    returns, and the path has a file, which holds the header line and one
    record for each row, in order. *)
Definition extraction_as_stated : Prop :=
  forall (requests_get : string -> outcome response)
         (html_parser : string -> list node)
         (open_w : string -> outcome string)
         (pandas : frame -> pyval -> option string * outcome unit)
         (rs : list (list string)) (self : SpotWx) (w : World)
         (u path : string) (r : response) (script : node) (pre post : string),
    url self = Some u -> csv_path self = PyStr path ->
    requests_get u = Return r -> status_code r = 200 ->
    soup_find "var aDataSet =" (html_parser (text r)) = Some script ->
    node_string script = Some (pre ++ assignment rs ++ post) ->
    Str.contains opening pre = false ->
    forallb (forecast_row quote_free) rs = true ->
    exists (w' : World) (file content : string),
      _get_csv requests_get html_parser open_w pandas (self, w)
      = (Return tt, (self, w')) /\
      open_w path = Return file /\
      read_file file w' = Some content /\
      lines content = header_line :: map csv_record rs.

(** ** More readers and outcomes, for the properties beyond the claims *)

(** The last test of [_verify_inputs]. *)
Definition display_ok (self : SpotWx) : bool :=
  isinstance_str (display self) && in_list (display self) display_list.

(** The tests of [_verify_inputs], in the order of the source, each with
    the name of its parameter. *)
Definition checks (self : SpotWx) : list (string * bool) :=
  [ ("csv_path", csv_path_ok self);
    ("model_request", model_request_ok self);
    ("lat", isinstance_float (lat self));
    ("lon", isinstance_float (lon self));
    ("timezone", timezone_ok self);
    ("display", display_ok self) ].

(** One [key=value] segment, cut at its first [=]. *)
Definition query_pair (segment : string) : string * string :=
  match Str.cut "=" segment with
  | Some (k, v) => (k, v)
  | None => (segment, EmptyString)
  end.

(** The parameters of a URL, read back from its query string. *)
Definition query_pairs (u : string) : list (string * string) :=
  map query_pair (Str.split ampersand (Query.query u)).

(** The world once the request for [u] is sent. *)
Definition sent (u : string) (w : World) : World :=
  mkWorld (requests w ++ [u]) (stdout w) (files w).

(** The ways [_get_csv] can end on an object whose URL is [u]: with an
    exception after the request and no file opened; with a report of a
    failed request or of a page without the variable; with the file of
    the path opened, written and reported as saved; with that report and
    no file (the path is [None], or pandas wrote none); or with the file
    opened and an exception after that. *)
Inductive get_csv_end (open_w : string -> outcome string)
          (self : SpotWx) (w : World) (u : string)
  : outcome unit * state -> Prop :=
| Raised (e : exn) :
    get_csv_end open_w self w u (Raise e, (self, sent u w))
| Failed (status : Z) :
    status <> 200 ->
    get_csv_end open_w self w u (Return tt, (self, answered u (failed status) w))
| Missed :
    get_csv_end open_w self w u (Return tt, (self, answered u not_found w))
| Saved (path file content : string) :
    csv_path self = PyStr path -> open_w path = Return file ->
    get_csv_end open_w self w u
      (Return tt, (self, write_file file content (answered u saved w)))
| Unsaved :
    get_csv_end open_w self w u (Return tt, (self, answered u saved w))
| Torn (path file content : string) (e : exn) :
    csv_path self = PyStr path -> open_w path = Return file ->
    get_csv_end open_w self w u
      (Raise e, (self, write_file file content (sent u w))).

(** Five arguments instead of six. *)
Definition argv_five : list string :=
  [ "out.csv"; "gfs"; "51.0"; "-114.0"; "America/Edmonton" ].

(** Objects whose parameters have the wrong type. *)
Definition none_path : SpotWx :=
  __init__ PyNone (PyStr "gfs") (PyFloat 51.0) (PyFloat (-114.0))
    (PyStr "America/Edmonton") (PyStr "table").

Definition int_model : SpotWx :=
  __init__ (PyStr "out.csv") (PyInt 3) (PyFloat 51.0) (PyFloat (-114.0))
    (PyStr "America/Edmonton") (PyStr "table").

Definition none_timezone : SpotWx :=
  __init__ (PyStr "out.csv") (PyStr "gfs") (PyFloat 51.0) (PyFloat (-114.0))
    PyNone (PyStr "table").

Definition bool_display : SpotWx :=
  __init__ (PyStr "out.csv") (PyStr "gfs") (PyFloat 51.0) (PyFloat (-114.0))
    (PyStr "America/Edmonton") (PyBool true).

(** A page whose script assigns the variable without the closing
    semicolon that the pattern wants. *)
Definition open_script : string := "var aDataSet = [['a','b']]".

Definition open_page (u : string) : outcome response :=
  Return (mkResponse 200 ("<script>" ++ open_script ++ "</script>")).

Definition open_soup (page : string) : list node :=
  [ Tag "script" [ Text open_script ] ].

(** A world with two files already there. *)
Definition old_files : World :=
  mkWorld [] [] [ ("out.csv", "old"); ("notes.txt", "keep") ].

(** A page whose first field holds the escape of a surrogate without a
    partner, and a pandas that writes the header and then fails to
    encode that field. *)
Definition surrogate_script : string :=
  "var aDataSet = [['\ud800','06:00','12.1','85','270','5','0.0']];".

Definition surrogate_page (u : string) : outcome response :=
  Return (mkResponse 200 ("<script>" ++ surrogate_script ++ "</script>")).

Definition surrogate_soup (page : string) : list node :=
  [ Tag "script" [ Text surrogate_script ] ].

Definition fails_to_encode (df : frame) (path : pyval) : option string * outcome unit :=
  (Some (header_line ++ newline),
   Raise (Exception "UnicodeEncodeError" "surrogates not allowed")).


(** * Properties *)

(** ** Strings *)

Lemma append_nil_r (s : string) : s ++ EmptyString = s.
Proof. induction s as [|a s IH]; simpl; [reflexivity | now rewrite IH]. Qed.

Lemma append_assoc (a b c : string) : (a ++ b) ++ c = a ++ (b ++ c).
Proof. induction a as [|x a IH]; simpl; [reflexivity | now rewrite IH]. Qed.


Lemma forallb_append (f : ascii -> bool) (a b : string) :
  Str.forallb f (a ++ b) = Str.forallb f a && Str.forallb f b.
Proof.
  induction a as [|x a IH]; simpl; [reflexivity |].
  now rewrite IH, andb_assoc.
Qed.

Lemma forallb_impl (f g : ascii -> bool) (s : string) :
  (forall c, f c = true -> g c = true) ->
  Str.forallb f s = true -> Str.forallb g s = true.
Proof.
  intros Hfg. induction s as [|x s IH]; simpl; [reflexivity |].
  intros H. apply andb_true_iff in H as [Hx Hs].
  now rewrite (Hfg _ Hx), (IH Hs).
Qed.

Lemma forallb_substring (f : ascii -> bool) (s : string) :
  Str.forallb f s = true ->
  forall n m, Str.forallb f (substring n m s) = true.
Proof.
  induction s as [|x s IH]; intros H n m.
  - destruct n, m; reflexivity.
  - simpl in H. apply andb_true_iff in H as [Hx Hs].
    destruct n as [|n].
    + destruct m as [|m]; simpl; [reflexivity |].
      now rewrite Hx, (IH Hs 0%nat m).
    + simpl. apply IH, Hs.
Qed.

Lemma forallb_repeat (f : ascii -> bool) (c : ascii) (n : nat) :
  f c = true -> Str.forallb f (Str.repeat c n) = true.
Proof.
  intros Hc. induction n as [|n IH]; simpl; [reflexivity | now rewrite Hc, IH].
Qed.

Lemma strip_prefix_append (p r : string) : Str.strip_prefix p (p ++ r) = Some r.
Proof.
  induction p as [|a p IH]; simpl; [reflexivity |].
  now rewrite Ascii.eqb_refl.
Qed.

Lemma lacks_cons (c a : ascii) (s : string) :
  lacks c (String a s) = negb (Ascii.eqb a c) && lacks c s.
Proof. reflexivity. Qed.

Lemma lacks_append (c : ascii) (a b : string) :
  lacks c (a ++ b) = lacks c a && lacks c b.
Proof. apply forallb_append. Qed.

Lemma join_cons (sep x y : string) (l : list string) :
  Str.join sep (x :: y :: l) = x ++ sep ++ Str.join sep (y :: l).
Proof. reflexivity. Qed.

Lemma lacks_join (c : ascii) (sep : string) (l : list string) :
  lacks c sep = true -> forallb (lacks c) l = true ->
  lacks c (Str.join sep l) = true.
Proof.
  intros Hsep. induction l as [|x l IH]; [reflexivity |].
  intros H. cbn [forallb] in H. apply andb_true_iff in H as [Hx Hl].
  destruct l as [|y l]; [exact Hx |].
  change (Str.join sep (x :: y :: l)) with (x ++ sep ++ Str.join sep (y :: l)).
  now rewrite !lacks_append, Hx, Hsep, (IH Hl).
Qed.

Lemma startswith_cons (a b : ascii) (p s : string) :
  Str.startswith (String a p) (String b s) = Ascii.eqb a b && Str.startswith p s.
Proof. unfold Str.startswith. cbn. now destruct (Ascii.eqb a b). Qed.

Lemma startswith_nil (s : string) : Str.startswith EmptyString s = true.
Proof. now destruct s. Qed.

Lemma contains_cons (p : string) (a : ascii) (s : string) :
  Str.contains p (String a s) = Str.startswith p (String a s) || Str.contains p s.
Proof. reflexivity. Qed.

Lemma contains_startswith (p s : string) :
  Str.startswith p s = true -> Str.contains p s = true.
Proof. intros H. destruct s; simpl; now rewrite H. Qed.

Lemma contains_append (p a b : string) : Str.contains p (a ++ p ++ b) = true.
Proof.
  induction a as [|x a IH].
  - apply contains_startswith. unfold Str.startswith. cbn [append].
    now rewrite strip_prefix_append.
  - cbn [append Str.contains]. rewrite IH. apply orb_true_r.
Qed.

Lemma cut_cons (p : string) (a : ascii) (s : string) :
  Str.cut p (String a s)
  = match Str.strip_prefix p (String a s) with
    | Some r => Some (EmptyString, r)
    | None =>
        match Str.cut p s with
        | Some (l, r) => Some (String a l, r)
        | None => None
        end
    end.
Proof. reflexivity. Qed.

Lemma split_last (c : ascii) (a : string) :
  lacks c a = true -> Str.split c a = [a].
Proof.
  unfold lacks. induction a as [|x a IH]; simpl; [reflexivity |].
  intros H. apply andb_true_iff in H as [Hx Ha].
  apply negb_true_iff in Hx. now rewrite Hx, (IH Ha).
Qed.

Lemma split_segment (c : ascii) (a b : string) :
  lacks c a = true -> Str.split c (a ++ String c b) = a :: Str.split c b.
Proof.
  unfold lacks. induction a as [|x a IH]; simpl.
  - now rewrite Ascii.eqb_refl.
  - intros H. apply andb_true_iff in H as [Hx Ha].
    apply negb_true_iff in Hx. now rewrite Hx, (IH Ha).
Qed.

Lemma split_not_nil (c : ascii) (s : string) : Str.split c s <> [].
Proof.
  destruct s as [|a s]; simpl; [discriminate |].
  destruct (Ascii.eqb a c); [discriminate |].
  destruct (Str.split c s); discriminate.
Qed.

(** Splitting a joined row on the separator gives the row back. *)
Lemma split_join (c : ascii) (r : list string) :
  r <> [] -> forallb (lacks c) r = true ->
  Str.split c (Str.join (String c EmptyString) r) = r.
Proof.
  induction r as [|x r IH]; [congruence |].
  intros _ H. cbn [forallb] in H. apply andb_true_iff in H as [Hx Hr].
  destruct r as [|y r].
  - now apply split_last.
  - change (Str.join (String c EmptyString) (x :: y :: r))
      with (x ++ String c (Str.join (String c EmptyString) (y :: r))).
    rewrite (split_segment c _ _ Hx). f_equal. apply IH; [discriminate | assumption].
Qed.

Lemma cut_char (c : ascii) (k v : string) :
  lacks c k = true ->
  Str.cut (String c EmptyString) (k ++ String c v) = Some (k, v).
Proof.
  unfold lacks. induction k as [|x k IH]; simpl.
  - now rewrite Ascii.eqb_refl.
  - intros H. apply andb_true_iff in H as [Hx Hk].
    apply negb_true_iff in Hx. rewrite Ascii.eqb_sym in Hx.
    now rewrite Hx, (IH Hk).
Qed.


Lemma startswith_over (p : string) (c : ascii) :
  forall a b : string,
    lacks c p = true ->
    Str.startswith p (a ++ String c b) = Str.startswith p a.
Proof.
  induction p as [|x p IH]; intros a b H.
  - now rewrite !startswith_nil.
  - rewrite lacks_cons in H. apply andb_true_iff in H as [Hx Hp].
    apply negb_true_iff in Hx. destruct a as [|y a].
    + cbn [append]. rewrite startswith_cons, Hx. reflexivity.
    + cbn [append]. rewrite !startswith_cons. now rewrite (IH a b Hp).
Qed.

(** A text is found on one side or the other of a character it does
    not hold. *)
Lemma contains_over (p : string) (c : ascii) (a b : string) :
  lacks c p = true ->
  Str.contains p (a ++ String c b) = Str.contains p a || Str.contains p b.
Proof.
  intros H. induction a as [|y a IH].
  - cbn [append]. rewrite contains_cons.
    pose proof (startswith_over p c EmptyString b H) as S. cbn [append] in S.
    rewrite S. change (Str.contains p EmptyString)
      with (Str.startswith p EmptyString || false).
    now rewrite orb_false_r.
  - cbn [append]. rewrite !contains_cons, IH.
    change (String y (a ++ String c b)) with (String y a ++ String c b).
    rewrite (startswith_over p c (String y a) b H). now rewrite orb_assoc.
Qed.

Lemma startswith_needs (p : string) (c : ascii) :
  forall s : string,
    lacks c s = true -> Str.startswith (p ++ String c EmptyString) s = false.
Proof.
  induction p as [|x p IH]; intros s H; (destruct s as [|y s]; [reflexivity |]);
    rewrite lacks_cons in H; apply andb_true_iff in H as [Hy Hs];
    cbn [append]; rewrite startswith_cons.
  - apply negb_true_iff in Hy. rewrite Ascii.eqb_sym in Hy. now rewrite Hy.
  - rewrite (IH s Hs). apply andb_false_r.
Qed.

Lemma startswith_before (p : string) (c : ascii) :
  forall a b : string,
    lacks c b = true ->
    Str.startswith (p ++ String c EmptyString) (a ++ b)
    = Str.startswith (p ++ String c EmptyString) a.
Proof.
  induction p as [|x p IH]; intros a b H.
  - destruct a as [|y a].
    + pose proof (startswith_needs EmptyString c b H) as S.
      cbn [append] in *. now rewrite S.
    + cbn [append]. now rewrite !startswith_cons, !startswith_nil.
  - destruct a as [|y a].
    + pose proof (startswith_needs (String x p) c b H) as S.
      cbn [append] in *. now rewrite S.
    + cbn [append]. rewrite !startswith_cons. now rewrite (IH a b H).
Qed.

Lemma contains_needs (p : string) (c : ascii) (s : string) :
  lacks c s = true -> Str.contains (p ++ String c EmptyString) s = false.
Proof.
  induction s as [|y s IH]; intros H.
  - change (Str.contains ?q EmptyString) with (Str.startswith q EmptyString || false).
    now rewrite (startswith_needs p c EmptyString H).
  - rewrite contains_cons, (startswith_needs p c _ H).
    rewrite lacks_cons in H. apply andb_true_iff in H as [_ Hs]. now apply IH.
Qed.

(** A text that ends in [c] is not found later than the last [c]. *)
Lemma contains_before (p : string) (c : ascii) (a b : string) :
  lacks c b = true ->
  Str.contains (p ++ String c EmptyString) (a ++ b)
  = Str.contains (p ++ String c EmptyString) a.
Proof.
  intros H. induction a as [|y a IH].
  - cbn [append]. rewrite (contains_needs p c b H).
    symmetry. now apply contains_needs.
  - cbn [append]. rewrite !contains_cons, IH.
    change (String y (a ++ b)) with (String y a ++ b).
    now rewrite (startswith_before p c (String y a) b H).
Qed.





Lemma find_none {A : Type} (f : A -> bool) (l : list A) :
  (forall x, In x l -> f x = false) -> List.find f l = None.
Proof.
  induction l as [|a l IH]; intros H; simpl; [reflexivity |].
  rewrite (H a (or_introl eq_refl)). apply IH. intros x Hx. apply H. now right.
Qed.


(** ** The text of a float *)

Lemma string_of_uint_chars (u : Decimal.uint) :
  Str.forallb float_char (NilEmpty.string_of_uint u) = true.
Proof. induction u; simpl; auto. Qed.

Lemma digits_Z_chars (z : Z) : Str.forallb float_char (PyFloat.digits_Z z) = true.
Proof.
  destruct z as [|p|p]; [reflexivity | | reflexivity].
  unfold PyFloat.digits_Z, PyFloat.digits. apply string_of_uint_chars.
Qed.

Lemma layout_chars (ds : string) (decpt : Z) :
  Str.forallb float_char ds = true ->
  Str.forallb float_char (PyFloat.layout ds decpt) = true.
Proof.
  intros H. unfold PyFloat.layout, PyFloat.zeros.
  repeat match goal with
         | |- context [if ?b then _ else _] => destruct b
         end;
    repeat (rewrite forallb_append; apply andb_true_iff; split);
    auto using forallb_substring, forallb_repeat, digits_Z_chars.
Qed.

Lemma repr_chars (x : float) : Str.forallb float_char (PyFloat.repr x) = true.
Proof.
  unfold PyFloat.repr. destruct (Prim2SF x) as [s | s | | s m e].
  - destruct s; reflexivity.
  - destruct s; reflexivity.
  - reflexivity.
  - rewrite forallb_append. apply andb_true_iff. split.
    + destruct s; reflexivity.
    + unfold PyFloat.repr_finite.
      destruct (PyFloat.shortest 17 m e 1) as [d k].
      destruct (PyFloat.strip_zeros 20 d k) as [d' k'].
      apply layout_chars, digits_Z_chars.
Qed.

Lemma repr_lacks (c : ascii) (x : float) :
  float_char c = false -> lacks c (PyFloat.repr x) = true.
Proof.
  intros Hc. unfold lacks. apply forallb_impl with (f := float_char).
  - intros a Ha. destruct (Ascii.eqb_spec a c) as [-> |]; [congruence | reflexivity].
  - apply repr_chars.
Qed.

(** ** [_create_url] in closed form *)

Lemma create_url_run (self : SpotWx) (w : World) :
  _create_url (self, w) = (Return tt, (with_url self, w)).
Proof.
  destruct self as [p mr la lo tz d U t z m u].
  unfold _create_url, with_url, built_url, segment.
  cbv beta iota delta
    [bind get_self update attr_model when url_add attr_url ret fst snd
     model url title lat lon zone timezone display model_request csv_path URL
     set_model set_title set_url].
  destruct (truthy (dict_get model_dict mr));
    destruct (truthy (dict_get title_dict mr));
    destruct (truthy la); destruct (truthy lo);
    destruct (truthy z); destruct (truthy tz); destruct (truthy d);
    cbv beta iota;
    rewrite ?append_assoc, ?append_nil_r; reflexivity.
Qed.

Lemma created_url_built (self : SpotWx) (w : World) :
  created_url self w = Some (built_url self).
Proof. unfold created_url. now rewrite create_url_run. Qed.

(** ** [_verify_inputs] *)

Ltac run_checks :=
  cbv beta iota delta
    [_verify_inputs valid bind get_self raise ret fst snd
     csv_path model_request lat lon timezone display];
  repeat match goal with
         | |- context [if negb ?b then _ else _] =>
             destruct b eqn:?; cbn [negb bind raise ret andb]
         end.

(** The validator changes neither the object nor the world. *)
Lemma verify_inputs_frame (st : state) : snd (_verify_inputs st) = st.
Proof.
  destruct st as [[p mr la lo tz d U t z m u] w].
  run_checks; reflexivity.
Qed.

Lemma verify_inputs_valid (self : SpotWx) (w : World) :
  fst (_verify_inputs (self, w)) = Return tt <-> valid self = true.
Proof.
  destruct self as [p mr la lo tz d U t z m u].
  run_checks; cbv beta iota delta [fst]; split; intros H;
    try reflexivity; try discriminate H.
Qed.

Lemma verify_inputs_ok (self : SpotWx) (w : World) :
  valid self = true -> _verify_inputs (self, w) = (Return tt, (self, w)).
Proof.
  intros H. apply (verify_inputs_valid self w) in H.
  pose proof (verify_inputs_frame (self, w)) as F.
  destruct (_verify_inputs (self, w)) as [o st]. simpl in *. now subst.
Qed.

Lemma verify_inputs_raise (self : SpotWx) (w : World) :
  valid self = false -> exists e, _verify_inputs (self, w) = (Raise e, (self, w)).
Proof.
  intros H.
  pose proof (verify_inputs_frame (self, w)) as F.
  pose proof (verify_inputs_valid self w) as V.
  destruct (_verify_inputs (self, w)) as [[[]|e] st]; simpl in *.
  - destruct V as [V _]. rewrite V in H by reflexivity. discriminate.
  - exists e. now subst.
Qed.

(** What a valid object holds. *)
Lemma valid_inv (self : SpotWx) :
  valid self = true ->
  exists p mr x y tz d,
    csv_path self = PyStr p /\ Str.endswith ".csv" p = true /\
    model_request self = PyStr mr /\ In mr (keys model_dict) /\
    lat self = PyFloat x /\ lon self = PyFloat y /\
    timezone self = PyStr tz /\ In tz timezone_list /\
    display self = PyStr d /\ In d display_list.
Proof.
  unfold valid. intros H.
  repeat (apply andb_true_iff in H; destruct H as [H ?]).
  destruct self as [p mr la lo tz d U t z m u].
  cbn [csv_path model_request lat lon timezone display] in *.
  destruct p as [| | | |p]; try discriminate.
  destruct mr as [| | | |mr]; try discriminate.
  destruct la as [| | |x|]; try discriminate.
  destruct lo as [| | |y|]; try discriminate.
  destruct tz as [| | | |tz]; try discriminate.
  destruct d as [| | | |d]; try discriminate.
  exists p, mr, x, y, tz, d.
  assert (In_of : forall s l, existsb (String.eqb s) l = true -> In s l).
  { intros s l E. apply existsb_exists in E as [k [Hk E]].
    apply String.eqb_eq in E. now subst. }
  unfold in_list in *.
  repeat match goal with |- _ /\ _ => split end;
    try reflexivity; try assumption; now apply In_of.
Qed.

Lemma not_in_list (s : string) (l : list string) :
  ~ In s l -> in_list (PyStr s) l = false.
Proof.
  intros H. unfold in_list. destruct (existsb (String.eqb s) l) eqn:E; [| reflexivity].
  apply existsb_exists in E as [k [Hk E]]. apply String.eqb_eq in E. now subst.
Qed.

(** ** Query strings *)

Lemma key_pair_text (kv : string * string) :
  lacks equals (fst kv) = true -> Query.key (pair_text kv) = fst kv.
Proof.
  intros H. unfold Query.key, pair_text.
  change ("=" ++ snd kv) with (String equals (snd kv)).
  now rewrite (cut_char equals _ _ H).
Qed.

Lemma lacks_pair_text (kv : string * string) :
  well_formed kv = true -> lacks ampersand (pair_text kv) = true.
Proof.
  unfold well_formed, pair_text, lacks. intros H.
  apply andb_true_iff in H as [H Hv]. apply andb_true_iff in H as [_ Hk].
  rewrite !forallb_append, Hk, Hv. reflexivity.
Qed.

(** Splitting a written query string on [&] gives back its keys. *)
Lemma keys_query_text (l : list (string * string)) :
  l <> [] -> forallb well_formed l = true ->
  map Query.key (Str.split ampersand (query_text l)) = map fst l.
Proof.
  induction l as [|kv l IH]; [congruence |].
  intros _ H. simpl in H. apply andb_true_iff in H as [Hkv Hl].
  assert (Hk : lacks equals (fst kv) = true).
  { unfold well_formed in Hkv. apply andb_true_iff in Hkv as [Hkv _].
    now apply andb_true_iff in Hkv as [Hkv _]. }
  destruct l as [|kv' l].
  - unfold query_text. simpl Str.join.
    rewrite (split_last _ _ (lacks_pair_text _ Hkv)). simpl.
    now rewrite key_pair_text.
  - unfold query_text in *.
    change (Str.join "&" (map pair_text (kv :: kv' :: l)))
      with (pair_text kv ++ String ampersand (Str.join "&" (map pair_text (kv' :: l)))).
    rewrite (split_segment _ _ _ (lacks_pair_text _ Hkv)).
    cbn [map]. rewrite key_pair_text by assumption.
    f_equal. apply IH; [congruence | assumption].
Qed.

Lemma query_base (q : string) : Query.query (base_url ++ q) = q.
Proof. reflexivity. Qed.

Lemma keys_base (l : list (string * string)) :
  l <> [] -> forallb well_formed l = true ->
  Query.keys (base_url ++ query_text l) = map fst l.
Proof.
  intros. unfold Query.keys. rewrite query_base.
  now apply keys_query_text.
Qed.

(** A text that ends in [=] and holds no [&] occurs in a query string
    only where a key with its [=] holds it. *)
Lemma contains_query_text (p : string) (l : list (string * string)) :
  lacks ampersand (p ++ "=") = true ->
  forallb plain_value l = true ->
  Str.contains (p ++ "=") (query_text l)
  = existsb (fun kv => Str.contains (p ++ "=") (fst kv ++ "=")) l.
Proof.
  intros Hp. induction l as [|kv l IH]; intros H.
  - apply (contains_needs p equals EmptyString). reflexivity.
  - cbn [forallb] in H. apply andb_true_iff in H as [Hkv Hl].
    assert (E : Str.contains (p ++ "=") (pair_text kv)
                = Str.contains (p ++ "=") (fst kv ++ "=")).
    { unfold pair_text. rewrite <- append_assoc.
      apply (contains_before p equals). exact Hkv. }
    destruct l as [|kv' l].
    + unfold query_text. cbn [map Str.join existsb]. now rewrite E, orb_false_r.
    + unfold query_text in *. cbn [map] in *. rewrite join_cons.
      change ("&" ++ ?z) with (String ampersand z).
      rewrite (contains_over _ ampersand _ _ Hp), E, (IH Hl). reflexivity.
Qed.

Lemma contains_url (p : string) (l : list (string * string)) :
  lacks ampersand (p ++ "=") = true ->
  lacks "?" (p ++ "=") = true ->
  Str.contains (p ++ "=") endpoint = false ->
  forallb plain_value l = true ->
  Str.contains (p ++ "=") (base_url ++ query_text l)
  = existsb (fun kv => Str.contains (p ++ "=") (fst kv ++ "=")) l.
Proof.
  intros Ha Hq He Hl.
  change (base_url ++ query_text l) with (endpoint ++ String "?" (query_text l)).
  now rewrite (contains_over _ "?" _ _ Hq), He, (contains_query_text p l Ha Hl).
Qed.

(** ** The URL of a valid object *)

Lemma listed_plain (l : list string) (s : string) :
  forallb (fun k => negb (String.eqb k EmptyString) && lacks ampersand k) l = true ->
  In s l -> truthy (PyStr s) = true /\ lacks ampersand s = true.
Proof.
  intros H Hin. rewrite forallb_forall in H. specialize (H s Hin).
  now apply andb_true_iff in H.
Qed.

Lemma registered (mr : string) :
  In mr (keys model_dict) ->
  exists code,
    lookup mr model_dict = Some code /\ truthy (PyStr code) = true /\
    lacks ampersand code = true /\
    match lookup mr title_dict with
    | Some t => truthy (PyStr t) = true /\ lacks ampersand t = true
    | None => True
    end.
Proof.
  intros H. simpl in H.
  repeat (destruct H as [<- | H]; [eexists; repeat split; reflexivity |]).
  destruct H.
Qed.

Lemma lookup_in (k v : string) (d : list (string * string)) :
  lookup k d = Some v -> In v (map snd d).
Proof.
  induction d as [|[k' v'] d IH]; [discriminate |]. cbn [lookup map snd].
  destruct (String.eqb k k'); [intros [= ->]; now left | intros H; right; auto].
Qed.

Lemma listed_lacks (c : ascii) (l : list string) (s : string) :
  forallb (lacks c) l = true -> In s l -> lacks c s = true.
Proof. intros H Hin. rewrite forallb_forall in H. now apply H. Qed.

Lemma valid_url_parameters (self : SpotWx) :
  valid self = true -> truthy (zone self) = false ->
  exists mr code x y tz d,
    model_request self = PyStr mr /\ lat self = PyFloat x /\ lon self = PyFloat y /\
    timezone self = PyStr tz /\ display self = PyStr d /\
    lookup mr model_dict = Some code /\
    built_url self
    = base_url ++ query_text (parameters code (lookup mr title_dict) x y tz d) /\
    forallb well_formed (parameters code (lookup mr title_dict) x y tz d) = true.
Proof.
  intros V Z.
  destruct (valid_inv self V)
    as (p & mr & x & y & tz & d & Hp & _ & Hmr & Imr & Hx & Hy & Htz & Itz & Hd & Id).
  destruct (registered mr Imr) as (code & Hcode & Tcode & Acode & Ht).
  destruct (listed_plain timezone_list tz eq_refl Itz) as [Ttz Atz].
  destruct (listed_plain display_list d eq_refl Id) as [Td Ad].
  exists mr, code, x, y, tz, d.
  repeat match goal with |- _ /\ _ => split end; try assumption.
  - unfold built_url, segment.
    rewrite Hmr, Hx, Hy, Htz, Hd, Z. unfold dict_get. rewrite Hcode, Tcode, Ttz, Td.
    unfold parameters, optional. cbn [truthy str].
    destruct (lookup mr title_dict) as [t|]; [destruct Ht as [Tt _]; rewrite Tt |];
      destruct (PyFloat.truthy x); destruct (PyFloat.truthy y);
      cbn [query_text Str.join map pair_text fst snd app];
      rewrite ?append_assoc; reflexivity.
  - unfold parameters, optional.
    destruct (lookup mr title_dict) as [t|]; [destruct Ht as [_ At] |];
      destruct (PyFloat.truthy x); destruct (PyFloat.truthy y);
      cbn [app forallb]; unfold well_formed; cbn [fst snd];
      rewrite ?Acode, ?Atz, ?Ad, ?At, ?(repr_lacks ampersand x eq_refl),
        ?(repr_lacks ampersand y eq_refl);
      reflexivity.
Qed.

(** The keys of the URL of a valid object whose [zone] is unset. *)
Lemma valid_url_keys (self : SpotWx) :
  valid self = true -> truthy (zone self) = false ->
  exists mr x y,
    model_request self = PyStr mr /\ lat self = PyFloat x /\ lon self = PyFloat y /\
    Query.keys (built_url self)
    = (["model"]
       ++ match lookup mr title_dict with Some _ => ["title"] | None => [] end
       ++ (if PyFloat.truthy x then ["lat"] else [])
       ++ (if PyFloat.truthy y then ["lon"] else [])
       ++ ["tz"; "display"])%list.
Proof.
  intros V Z.
  destruct (valid_url_parameters self V Z)
    as (mr & code & x & y & tz & d & Hmr & Hx & Hy & _ & _ & _ & Hu & W).
  exists mr, x, y. repeat match goal with |- _ /\ _ => split end; try assumption.
  rewrite Hu, keys_base by (assumption || discriminate).
  unfold parameters, optional.
  destruct (lookup mr title_dict); destruct (PyFloat.truthy x);
    destruct (PyFloat.truthy y); reflexivity.
Qed.

(** In the URL of a valid object whose [zone] is unset, [zone=] does not
    occur, and [title=] occurs exactly when the model has a title. *)
Lemma valid_url_contains (self : SpotWx) :
  valid self = true -> truthy (zone self) = false ->
  exists mr,
    model_request self = PyStr mr /\
    Str.contains "zone=" (built_url self) = false /\
    Str.contains "title=" (built_url self)
    = match lookup mr title_dict with Some _ => true | None => false end.
Proof.
  intros V Z.
  destruct (valid_url_parameters self V Z)
    as (mr & code & x & y & tz & d & Hmr & _ & _ & Htz & Hd & Hcode & Hu & _).
  destruct (valid_inv self V)
    as (_ & _ & _ & _ & tz' & d' & _ & _ & _ & _ & _ & _ & Htz' & Itz & Hd' & Id).
  rewrite Htz in Htz'. injection Htz' as <-. rewrite Hd in Hd'. injection Hd' as <-.
  assert (P : forallb plain_value (parameters code (lookup mr title_dict) x y tz d) = true).
  { pose proof (listed_lacks equals (map snd model_dict) code eq_refl
                  (lookup_in _ _ _ Hcode)) as Ecode.
    pose proof (listed_lacks equals timezone_list tz eq_refl Itz) as Etz.
    pose proof (listed_lacks equals display_list d eq_refl Id) as Ed.
    unfold parameters, optional.
    destruct (lookup mr title_dict) as [t|] eqn:Et;
      [pose proof (listed_lacks equals (map snd title_dict) t eq_refl
                     (lookup_in _ _ _ Et)) as Etitle |];
      destruct (PyFloat.truthy x); destruct (PyFloat.truthy y);
      cbn [app forallb]; unfold plain_value; cbn [snd];
      rewrite ?Ecode, ?Etz, ?Ed, ?Etitle, ?(repr_lacks equals x eq_refl),
        ?(repr_lacks equals y eq_refl);
      reflexivity. }
  exists mr. split; [assumption |]. rewrite Hu. split.
  - change "zone=" with ("zone" ++ "=").
    rewrite (contains_url "zone" _ eq_refl eq_refl eq_refl P).
    unfold parameters, optional.
    destruct (lookup mr title_dict); destruct (PyFloat.truthy x);
      destruct (PyFloat.truthy y); reflexivity.
  - change "title=" with ("title" ++ "=").
    rewrite (contains_url "title" _ eq_refl eq_refl eq_refl P).
    unfold parameters, optional.
    destruct (lookup mr title_dict); destruct (PyFloat.truthy x);
      destruct (PyFloat.truthy y); reflexivity.
Qed.

(** Off the equator and off the prime meridian every segment is there, in
    the order model, title (when the model has one), lat, lon, tz,
    display. *)
Corollary valid_url_keys_nonzero (self : SpotWx) :
  valid self = true -> truthy (zone self) = false ->
  truthy (lat self) = true -> truthy (lon self) = true ->
  exists mr,
    model_request self = PyStr mr /\
    Query.keys (built_url self)
    = (["model"]
       ++ match lookup mr title_dict with Some _ => ["title"] | None => [] end
       ++ ["lat"; "lon"; "tz"; "display"])%list.
Proof.
  intros V Z Tx Ty.
  destruct (valid_url_keys self V Z) as (mr & x & y & Hmr & Hx & Hy & K).
  exists mr. split; [assumption |]. rewrite K.
  rewrite Hx in Tx. rewrite Hy in Ty. cbn [truthy] in Tx, Ty.
  now rewrite Tx, Ty.
Qed.

Lemma title_registered (mr : string) :
  lookup mr title_dict <> None <-> mr = "short_meteocode" \/ mr = "ext_meteocode".
Proof.
  unfold title_dict, lookup.
  destruct (String.eqb_spec mr "short_meteocode") as [-> | N1].
  - split; [now left | discriminate].
  - destruct (String.eqb_spec mr "ext_meteocode") as [-> | N2].
    + split; [now right | discriminate].
    + split; [congruence | intros [? | ?]; contradiction].
Qed.

Lemma keys_title (t : option string) (bx bly : bool) :
  In "title"
    (["model"] ++ match t with Some _ => ["title"] | None => [] end
     ++ (if bx then ["lat"] else []) ++ (if bly then ["lon"] else [])
     ++ ["tz"; "display"])%list
  <-> t <> None.
Proof.
  destruct t; destruct bx; destruct bly; cbn [app In]; split; intros H;
    try discriminate; try congruence; try (now (right; left));
    repeat (destruct H as [H | H]; try discriminate H); contradiction.
Qed.

Lemma keys_zone (t : option string) (bx bly : bool) :
  ~ In "zone"
    (["model"] ++ match t with Some _ => ["title"] | None => [] end
     ++ (if bx then ["lat"] else []) ++ (if bly then ["lon"] else [])
     ++ ["tz"; "display"])%list.
Proof.
  destruct t; destruct bx; destruct bly; cbn [app In]; intros H;
    repeat (destruct H as [H | H]; try discriminate H); contradiction.
Qed.

(** ** The URL builder *)

(** C2: on the input (out.csv, gfs, 51.0, -114.0, America/Edmonton, table)
    the validator accepts and [_create_url] builds a URL that contains
    [model=gfs_pgrb2&lat=51.0&lon=-114.0&tz=America/Edmonton&display=table]
    and neither a [title=] nor a [zone=] segment. *)
Theorem example_url_built :
  forall w : World,
    _verify_inputs (example, w) = (Return tt, (example, w)) /\
    created_url example w = Some example_url /\
    Str.contains
      "model=gfs_pgrb2&lat=51.0&lon=-114.0&tz=America/Edmonton&display=table"
      example_url = true /\
    Str.contains "title=" example_url = false /\
    Str.contains "zone=" example_url = false /\
    Query.keys example_url = ["model"; "lat"; "lon"; "tz"; "display"].
Proof.
  intros w. repeat split; vm_compute; reflexivity.
Qed.

(** C1, at the input where the code departs from it: the latitude 0.0
    passes the validator, and the URL that [_create_url] builds for it has
    no [lat] segment: its keys are model, lon, tz, display. *)
Theorem lat_dropped_on_equator :
  forall w : World,
    _verify_inputs (equator, w) = (Return tt, (equator, w)) /\
    lat equator = PyFloat 0.0 /\
    created_url equator w = Some equator_url /\
    Query.keys equator_url = ["model"; "lon"; "tz"; "display"] /\
    Str.contains "lat=" equator_url = false.
Proof.
  intros w. repeat split; vm_compute; reflexivity.
Qed.

(** C8: [_create_url] is deterministic.  Two objects that agree on the
    model, the coordinates, the zone, the time zone and the display mode
    get the same URL, whatever else they hold (an older URL, another csv
    path) and whatever the world is. *)
Theorem create_url_deterministic :
  forall (self1 self2 : SpotWx) (w1 w2 : World),
    model_request self1 = model_request self2 ->
    lat self1 = lat self2 ->
    lon self1 = lon self2 ->
    zone self1 = zone self2 ->
    timezone self1 = timezone self2 ->
    display self1 = display self2 ->
    created_url self1 w1 = created_url self2 w2.
Proof.
  intros self1 self2 w1 w2 Hm Hla Hlo Hz Htz Hd.
  rewrite !created_url_built. unfold built_url.
  now rewrite Hm, Hla, Hlo, Hz, Htz, Hd.
Qed.

(** ** Runs of [_get_csv] and [getSpotWx] *)

Lemma keeps_bind {A B : Type} (m : M A) (k : A -> M B) :
  keeps_self m -> (forall a, keeps_self (k a)) -> keeps_self (bind m k).
Proof.
  intros Hm Hk st. unfold bind. specialize (Hm st).
  destruct (m st) as [[a|e] st']; cbn [fst snd] in *.
  - now rewrite Hk.
  - assumption.
Qed.

Lemma keeps_lift {A : Type} (o : outcome A) : keeps_self (lift o).
Proof. intros st. reflexivity. Qed.

Lemma keeps_print (line : string) : keeps_self (print line).
Proof. intros st. reflexivity. Qed.

Lemma keeps_raise {A : Type} (e : exn) : keeps_self (@raise A e).
Proof. intros st. reflexivity. Qed.

Lemma keeps_write (open_w : string -> outcome string)
      (path content : string) (ending : outcome unit) :
  keeps_self (write open_w path content ending).
Proof. intros st. unfold write. now destruct (open_w path). Qed.

Lemma keeps_to_csv (open_w : string -> outcome string)
      (pandas : frame -> pyval -> option string * outcome unit)
      (df : frame) (path : pyval) :
  keeps_self (to_csv open_w pandas df path).
Proof.
  unfold to_csv.
  destruct df as [d | data]; destruct (pandas _ path) as [[content|] ending];
    destruct path; try apply keeps_write; intros st; reflexivity.
Qed.

Section Runs.

Variable requests_get : string -> outcome response.
Variable html_parser : string -> list node.
Variable open_w : string -> outcome string.
Variable pandas : frame -> pyval -> option string * outcome unit.

(** [_get_csv] changes no attribute of its object. *)
Lemma get_csv_self : keeps_self (_get_csv requests_get html_parser open_w pandas).
Proof.
  unfold _get_csv.
  apply keeps_bind; [intros st; unfold attr_url; now destruct (url (fst st)) |].
  intros u. apply keeps_bind; [intros st; reflexivity |]. intros r.
  destruct (status_code r =? 200); [| apply keeps_print].
  destruct (soup_find _ _) as [script|]; [| apply keeps_print].
  destruct (node_string script) as [script_text|]; [| apply keeps_raise].
  destruct (search_aDataSet script_text) as [json_text|]; [| apply keeps_raise].
  apply keeps_bind; [apply keeps_lift |]. intros data. cbv zeta.
  apply keeps_bind; [intros st; reflexivity |]. intros self.
  apply keeps_bind; [apply keeps_to_csv |]. intros _. apply keeps_print.
Qed.

(** A run of [getSpotWx] on a valid object builds the URL, then fetches. *)
Lemma getSpotWx_valid (self : SpotWx) (w : World) :
  valid self = true ->
  getSpotWx requests_get html_parser open_w pandas (self, w)
  = _get_csv requests_get html_parser open_w pandas (with_url self, w).
Proof.
  intros V. unfold getSpotWx, bind.
  now rewrite (verify_inputs_ok self w V), create_url_run.
Qed.

(** On any other object it raises in the validator and does nothing. *)
Lemma getSpotWx_invalid (self : SpotWx) (w : World) (e : exn) :
  fst (_verify_inputs (self, w)) = Raise e ->
  getSpotWx requests_get html_parser open_w pandas (self, w) = (Raise e, (self, w)).
Proof.
  intros H. unfold getSpotWx, bind.
  pose proof (verify_inputs_frame (self, w)) as F.
  destruct (_verify_inputs (self, w)) as [o st]. cbn [fst snd] in *.
  now subst.
Qed.

(** C10: [__init__] leaves [zone] at [None] and no method assigns it.  A
    run on valid parameters builds a URL, the one of [built_url], and a
    run on invalid ones builds none.  The URL of a run never has a [zone]
    segment (no key [zone], and the text [zone=] nowhere); and it has a
    [title] segment (the key, and the text [title=]) exactly when the
    model requested is [short_meteocode] or [ext_meteocode]: for these the
    URL goes on with [model=meteocode&title=FPVR14] and
    [model=meteocode&title=FPVR54]. *)
Theorem zone_never_set_title_for_meteocode :
  forall (csv_path model_request lat lon timezone display : pyval) (w : World),
    let self := __init__ csv_path model_request lat lon timezone display in
    let final := fst (snd (getSpotWx requests_get html_parser open_w pandas (self, w))) in
    zone self = PyNone /\
    zone final = PyNone /\
    (valid self = true -> url final = Some (built_url self)) /\
    (valid self = false -> url final = None) /\
    (valid self = true -> model_request = PyStr "short_meteocode" ->
     exists rest : string,
       built_url self = base_url ++ "model=meteocode&title=FPVR14" ++ rest) /\
    (valid self = true -> model_request = PyStr "ext_meteocode" ->
     exists rest : string,
       built_url self = base_url ++ "model=meteocode&title=FPVR54" ++ rest) /\
    forall u : string,
      url final = Some u ->
      ~ In "zone" (Query.keys u) /\
      Str.contains "zone=" u = false /\
      (In "title" (Query.keys u) <->
       model_request = PyStr "short_meteocode" \/
       model_request = PyStr "ext_meteocode") /\
      (Str.contains "title=" u = true <->
       model_request = PyStr "short_meteocode" \/
       model_request = PyStr "ext_meteocode").
Proof.
  intros p mr la lo tz d w self final.
  assert (Z : zone self = PyNone) by reflexivity.
  destruct (valid self) eqn:V.
  - assert (F : final = with_url self).
    { unfold final. rewrite (getSpotWx_valid self w V). apply get_csv_self. }
    split; [assumption |]. split; [now rewrite F |].
    split; [intros _; now rewrite F |]. split; [intros H; discriminate H |].
    split; [intros _ E; subst mr; eexists; unfold built_url, self;
            cbn [model_request __init__]; reflexivity |].
    split; [intros _ E; subst mr; eexists; unfold built_url, self;
            cbn [model_request __init__]; reflexivity |].
    intros u Hu. rewrite F in Hu. cbn [with_url set_url url] in Hu.
    injection Hu as <-.
    destruct (valid_url_keys self V) as (m & x & y & Hm & _ & _ & K).
    { now rewrite Z. }
    change (mr = PyStr m) in Hm. subst mr. rewrite K.
    destruct (valid_url_contains self V) as (m' & Hm' & Cz & Ct).
    { now rewrite Z. }
    change (PyStr m = PyStr m') in Hm'. injection Hm' as <-.
    assert (R : lookup m title_dict <> None <->
                PyStr m = PyStr "short_meteocode" \/ PyStr m = PyStr "ext_meteocode").
    { rewrite title_registered. split; intros [H | H].
      - left. now rewrite H.
      - right. now rewrite H.
      - left. now injection H.
      - right. now injection H. }
    split; [apply keys_zone |]. split; [exact Cz |].
    split; [now rewrite keys_title |].
    rewrite Ct, <- R.
    destruct (lookup m title_dict); split; intros H;
      try reflexivity; try discriminate; congruence.
  - assert (F : final = self).
    { unfold final.
      destruct (verify_inputs_raise self w V) as [e He].
      rewrite (getSpotWx_invalid self w e); [reflexivity | now rewrite He]. }
    split; [assumption |]. split; [now rewrite F |].
    split; [intros H; discriminate H |]. split; [intros _; now rewrite F |].
    split; [intros H; discriminate H |]. split; [intros H; discriminate H |].
    intros u Hu. rewrite F in Hu. discriminate Hu.
Qed.

Lemma get_csv_failed (self : SpotWx) (w : World) (u : string) (r : response) :
  url self = Some u -> requests_get u = Return r -> status_code r <> 200 ->
  _get_csv requests_get html_parser open_w pandas (self, w)
  = (Return tt, (self, answered u (failed (status_code r)) w)).
Proof.
  intros Hu Hr Hs. unfold _get_csv, bind, attr_url, get. cbn [fst snd].
  rewrite Hu, Hr. apply Z.eqb_neq in Hs. rewrite Hs. reflexivity.
Qed.

(** C5: when the answer to the request has a status other than 200,
    [_get_csv] prints the failure with the status code and returns: the
    page is not parsed, no file is written, and the request just sent is
    the only one.  So does a whole run of [getSpotWx] on valid
    parameters. *)
Theorem transport_failure_reported :
  forall (self : SpotWx) (w : World) (u : string) (r : response),
    status_code r <> 200 ->
    (url self = Some u -> requests_get u = Return r ->
     _get_csv requests_get html_parser open_w pandas (self, w)
     = (Return tt, (self, answered u (failed (status_code r)) w))) /\
    (valid self = true -> built_url self = u -> requests_get u = Return r ->
     getSpotWx requests_get html_parser open_w pandas (self, w)
     = (Return tt, (with_url self, answered u (failed (status_code r)) w))) /\
    Str.contains (int_str (status_code r)) (failed (status_code r)) = true /\
    files (answered u (failed (status_code r)) w) = files w /\
    requests (answered u (failed (status_code r)) w) = (requests w ++ [u])%list /\
    stdout (answered u (failed (status_code r)) w)
    = (stdout w ++ [failed (status_code r)])%list.
Proof.
  intros self w u r Hs. repeat match goal with |- _ /\ _ => split end.
  - intros Hu Hr. now apply get_csv_failed.
  - intros V Hu Hr. rewrite (getSpotWx_valid self w V).
    apply get_csv_failed; [now rewrite <- Hu | assumption | assumption].
  - unfold failed.
    rewrite <- (append_nil_r (int_str (status_code r))) at 2.
    apply contains_append.
  - reflexivity.
  - reflexivity.
  - reflexivity.
Qed.

Lemma get_csv_not_found (self : SpotWx) (w : World) (u : string) (r : response) :
  url self = Some u -> requests_get u = Return r -> status_code r = 200 ->
  soup_find "var aDataSet =" (html_parser (text r)) = None ->
  _get_csv requests_get html_parser open_w pandas (self, w)
  = (Return tt, (self, answered u not_found w)).
Proof.
  intros Hu Hr Hs Hf. unfold _get_csv, bind, attr_url, get. cbn [fst snd].
  rewrite Hu, Hr, Hs, Hf. reflexivity.
Qed.

(** When the status is 200 and no script block of the page holds the
    text [var aDataSet =], [_get_csv] prints that the variable was not
    found, a line that no transport failure prints, writes no file and
    returns without raising. *)
Lemma extraction_miss_reported :
  forall (self : SpotWx) (w : World) (u : string) (r : response),
    url self = Some u -> requests_get u = Return r -> status_code r = 200 ->
    (forall (children : list node) (s : string),
       In (Tag "script" children)
          (descendants (Tag "[document]" (html_parser (text r)))) ->
       node_string (Tag "script" children) = Some s ->
       Str.contains "var aDataSet =" s = false) ->
    _get_csv requests_get html_parser open_w pandas (self, w)
    = (Return tt, (self, answered u not_found w)) /\
    files (answered u not_found w) = files w /\
    (forall status : Z, not_found <> failed status).
Proof.
  intros self w u r Hu Hr Hs Hnone. repeat match goal with |- _ /\ _ => split end.
  - apply (get_csv_not_found self w u r); try assumption.
    unfold soup_find. apply find_none. intros n Hn.
    destruct n as [s | name children]; [reflexivity |].
    unfold matches_script.
    destruct (String.eqb_spec name "script") as [-> | N]; [| reflexivity].
    destruct (node_string (Tag "script" children)) as [s|] eqn:E; [| reflexivity].
    cbn [andb]. now apply (Hnone children s).
  - reflexivity.
  - intros status. unfold not_found, failed. discriminate.
Qed.

Ltac run_validator :=
  cbv beta iota delta
    [_verify_inputs csv_path_ok model_request_ok timezone_ok
     bind get_self raise ret fst snd
     csv_path model_request lat lon timezone display] in *;
  repeat match goal with
         | H : _ && _ = true |- _ => apply andb_true_iff in H; destruct H
         end;
  repeat match goal with
         | H : ?b = _ |- context [if negb ?b then _ else _] =>
             rewrite H; cbn [negb bind raise ret fst snd]
         end.

(** C4: the validator changes nothing, and an error it raises ends the run
    before any request.  It accepts exactly the valid parameters.  A path
    without the csv extension, a model outside the registry, a latitude or
    a longitude that is not a float, a time zone or a display mode outside
    its list: each is answered by its own [ValueError], which names the
    parameter and, for the three lists, shows every accepted value. *)
Theorem validator_rejects_invalid_input :
  forall (self : SpotWx) (w : World),
    let verdict := fst (_verify_inputs (self, w)) in
    snd (_verify_inputs (self, w)) = (self, w) /\
    (forall e, verdict = Raise e ->
       getSpotWx requests_get html_parser open_w pandas (self, w) = (Raise e, (self, w))) /\
    (verdict = Return tt <-> valid self = true) /\
    (forall p, csv_path self = PyStr p -> Str.endswith ".csv" p = false ->
       verdict = Raise must_be_csv) /\
    (forall mr, csv_path_ok self = true ->
       model_request self = PyStr mr -> ~ In mr (keys model_dict) ->
       verdict = Raise (must_be_one_of "model_request" (keys model_dict))) /\
    (csv_path_ok self = true -> model_request_ok self = true ->
       isinstance_float (lat self) = false ->
       verdict = Raise (must_be_float "lat")) /\
    (csv_path_ok self = true -> model_request_ok self = true ->
       isinstance_float (lat self) = true -> isinstance_float (lon self) = false ->
       verdict = Raise (must_be_float "lon")) /\
    (forall tz, csv_path_ok self = true -> model_request_ok self = true ->
       isinstance_float (lat self) = true -> isinstance_float (lon self) = true ->
       timezone self = PyStr tz -> ~ In tz timezone_list ->
       verdict = Raise (must_be_one_of "timezone" timezone_list)) /\
    (forall d, csv_path_ok self = true -> model_request_ok self = true ->
       isinstance_float (lat self) = true -> isinstance_float (lon self) = true ->
       timezone_ok self = true ->
       display self = PyStr d -> ~ In d display_list ->
       verdict = Raise (must_be_one_of "display" display_list)) /\
    NoDup value_errors /\
    map (fun kv => names (fst kv) (snd kv))
      (combine ["csv_path"; "model_request"; "lat"; "lon"; "timezone"; "display"]
         value_errors)
    = [true; true; true; true; true; true] /\
    reports (keys model_dict) (must_be_one_of "model_request" (keys model_dict)) = true /\
    reports timezone_list (must_be_one_of "timezone" timezone_list) = true /\
    reports display_list (must_be_one_of "display" display_list) = true.
Proof.
  intros self w verdict. unfold verdict. clear verdict.
  repeat match goal with |- _ /\ _ => split end.
  - apply verify_inputs_frame.
  - intros e. apply getSpotWx_invalid.
  - apply verify_inputs_valid.
  - intros p Hp He. destruct self as [p' mr la lo tz d U t z m u].
    cbn [csv_path] in Hp. subst p'.
    assert (E : endswith (PyStr p) ".csv" = false) by exact He.
    run_validator. reflexivity.
  - intros mr' Hc Hm Hn. destruct self as [p mr la lo tz d U t z m u].
    cbn [model_request] in Hm. subst mr.
    pose proof (not_in_list mr' _ Hn) as E.
    assert (I : isinstance_str (PyStr mr') = true) by reflexivity.
    run_validator. reflexivity.
  - intros Hc Hm Hla. destruct self as [p mr la lo tz d U t z m u].
    run_validator. reflexivity.
  - intros Hc Hm Hla Hlo. destruct self as [p mr la lo tz d U t z m u].
    run_validator. reflexivity.
  - intros tz' Hc Hm Hla Hlo Htz Hn. destruct self as [p mr la lo tz d U t z m u].
    cbn [timezone] in Htz. subst tz.
    pose proof (not_in_list tz' _ Hn) as E.
    assert (I : isinstance_str (PyStr tz') = true) by reflexivity.
    run_validator. reflexivity.
  - intros d' Hc Hm Hla Hlo Htz Hd Hn. destruct self as [p mr la lo tz d U t z m u].
    cbn [display] in Hd. subst d.
    pose proof (not_in_list d' _ Hn) as E.
    assert (I : isinstance_str (PyStr d') = true) by reflexivity.
    run_validator. reflexivity.
  - unfold value_errors.
    repeat (constructor;
            [ cbn [In]; intros H;
              repeat (destruct H as [H | H]; [vm_compute in H; discriminate H |]);
              exact H |]).
    constructor.
  - vm_compute. reflexivity.
  - vm_compute. reflexivity.
  - vm_compute. reflexivity.
  - vm_compute. reflexivity.
Qed.

Lemma verify_inputs_of_argv (csv mr la lo tz d : string) (w : World) :
  fst (_verify_inputs (of_argv csv mr la lo tz d, w)) = Raise (argv_error csv mr).
Proof.
  unfold argv_error, of_argv, __init__.
  cbv beta iota delta
    [_verify_inputs bind get_self raise ret fst snd
     csv_path model_request lat lon timezone display
     isinstance_str isinstance_float endswith in_list].
  cbn [negb].
  destruct (Str.endswith ".csv" csv); cbn [negb]; [| reflexivity].
  destruct (existsb (String.eqb mr) (keys model_dict)); reflexivity.
Qed.

(** C3, amended: a run on six command-line arguments passes the latitude
    and the longitude as strings and never gets through the validator.  It
    ends in a [ValueError]: on [csv_path] when the path does not end in
    [.csv], else on [model_request] when the model is not registered, else
    on [lat].  No URL is built, nothing is requested, printed or written. *)
Theorem six_arguments_never_pass_validation :
  forall (argv : list string) (w : World),
    List.length argv = 6%nat ->
    exists csv mr la lo tz d : string,
      argv = [csv; mr; la; lo; tz; d] /\
      main requests_get html_parser open_w pandas argv w
      = (Uncaught (argv_error csv mr), Some (of_argv csv mr la lo tz d), w) /\
      lat (of_argv csv mr la lo tz d) = PyStr la /\
      lon (of_argv csv mr la lo tz d) = PyStr lo /\
      url (of_argv csv mr la lo tz d) = None /\
      (exists msg, argv_error csv mr = ValueError msg) /\
      (Str.endswith ".csv" csv = false -> argv_error csv mr = must_be_csv) /\
      (Str.endswith ".csv" csv = true -> ~ In mr (keys model_dict) ->
       argv_error csv mr = must_be_one_of "model_request" (keys model_dict)) /\
      (Str.endswith ".csv" csv = true -> In mr (keys model_dict) ->
       argv_error csv mr = must_be_float "lat").
Proof.
  intros argv w L.
  destruct argv as [|csv [|mr [|la [|lo [|tz [|d [|x argv]]]]]]]; try discriminate L.
  exists csv, mr, la, lo, tz, d. repeat match goal with |- _ /\ _ => split end.
  - reflexivity.
  - unfold main. fold (of_argv csv mr la lo tz d).
    now rewrite (getSpotWx_invalid _ _ _ (verify_inputs_of_argv csv mr la lo tz d w)).
  - reflexivity.
  - reflexivity.
  - reflexivity.
  - unfold argv_error.
    destruct (negb (Str.endswith ".csv" csv)); [eexists; reflexivity |].
    destruct (negb (existsb (String.eqb mr) (keys model_dict))); eexists; reflexivity.
  - intros He. unfold argv_error. now rewrite He.
  - intros He Hn. unfold argv_error. rewrite He. cbn [negb].
    pose proof (not_in_list mr _ Hn) as E. unfold in_list in E. now rewrite E.
  - intros He Hin. unfold argv_error. rewrite He. cbn [negb].
    destruct (existsb (String.eqb mr) (keys model_dict)) eqn:E; [reflexivity |].
    assert (X : existsb (String.eqb mr) (keys model_dict) = true).
    { apply existsb_exists. exists mr. split; [assumption | apply String.eqb_refl]. }
    congruence.
Qed.

End Runs.

(** C6: the page is answered with status 200 and its only script block
    mentions the variable in a comment, without assigning an array to
    it.  The block holds [var aDataSet =], so it is found; the pattern of
    the literal has no match in it, and [.group(1)] on [None] raises an
    [AttributeError]: no "not found" line is printed, and the run does
    not return. *)
Theorem mention_without_literal_raises :
  forall (open_w : string -> outcome string)
         (pandas : frame -> pyval -> option string * outcome unit) (w : World),
    Str.contains "var aDataSet = [" mention_script = false /\
    search_aDataSet mention_script = None /\
    _get_csv mention_page mention_soup open_w pandas (with_url example, w)
    = (Raise no_group, (with_url example, sent example_url w)) /\
    getSpotWx mention_page mention_soup open_w pandas (example, w)
    = (Raise no_group, (with_url example, sent example_url w)) /\
    stdout (sent example_url w) = stdout w.
Proof.
  intros open_w pandas w.
  split; [reflexivity |]. split; [reflexivity |]. split; [| split].
  - vm_compute. reflexivity.
  - vm_compute. reflexivity.
  - reflexivity.
Qed.

(** ** The csv file *)

Lemma drop_last_empty_cons (x y : string) (l : list string) :
  drop_last_empty (x :: y :: l) = x :: drop_last_empty (y :: l).
Proof. destruct x; reflexivity. Qed.

(** The lines of a text made of lines. *)
Lemma lines_concat (ls : list string) :
  forallb (lacks Csv.LF) ls = true ->
  lines (Csv.concat (map (fun l => l ++ newline) ls)) = ls.
Proof.
  unfold lines. induction ls as [|l ls IH]; [reflexivity |].
  intros H. cbn [forallb] in H. apply andb_true_iff in H as [Hl Hls].
  cbn [map Csv.concat]. rewrite append_assoc.
  change (newline ++ Csv.concat (map (fun l0 => l0 ++ newline) ls))
    with (String Csv.LF (Csv.concat (map (fun l0 => l0 ++ newline) ls))).
  rewrite (split_segment Csv.LF _ _ Hl).
  pose proof (split_not_nil Csv.LF (Csv.concat (map (fun l0 => l0 ++ newline) ls))) as N.
  specialize (IH Hls).
  destruct (Str.split Csv.LF (Csv.concat (map (fun l0 => l0 ++ newline) ls)))
    as [|y ys]; [congruence |].
  now rewrite drop_last_empty_cons, IH.
Qed.

Lemma text_lines (df : DataFrame) :
  Csv.text df
  = Csv.concat (map (fun l => l ++ newline) (map csv_record (columns df :: rows df))).
Proof.
  unfold Csv.text, Csv.line, csv_record. cbn [map Csv.concat].
  f_equal. now rewrite map_map.
Qed.

(** An unquoted field is written as it is. *)
Lemma field_unquoted (f : string) : unquoted f = true -> Csv.field f = f.
Proof. intros H. unfold Csv.field, Csv.needs_quotes. fold (unquoted f). now rewrite H. Qed.

Lemma unquoted_lacks (f : string) :
  unquoted f = true -> lacks Csv.comma f = true /\ lacks Csv.LF f = true.
Proof.
  intros H. unfold unquoted in H. unfold lacks. split.
  - apply forallb_impl with (2 := H). intros c Hc. unfold Csv.special in Hc.
    destruct (Ascii.eqb c Csv.comma); [discriminate | reflexivity].
  - apply forallb_impl with (2 := H). intros c Hc. unfold Csv.special in Hc.
    destruct (Ascii.eqb c Csv.LF); [| reflexivity].
    rewrite !orb_true_r in Hc. discriminate.
Qed.

Lemma map_field_unquoted (r : list string) :
  forallb unquoted r = true -> map Csv.field r = r.
Proof.
  induction r as [|f r IH]; [reflexivity |]. cbn [forallb map]. intros H.
  apply andb_true_iff in H as [Hf Hr]. now rewrite (field_unquoted f Hf), (IH Hr).
Qed.

Lemma forallb_unquoted_lacks (r : list string) :
  forallb unquoted r = true ->
  forallb (lacks Csv.comma) r = true /\ forallb (lacks Csv.LF) r = true.
Proof.
  induction r as [|f r IH]; [now split |]. cbn [forallb]. intros H.
  apply andb_true_iff in H as [Hf Hr].
  destruct (unquoted_lacks f Hf) as [-> ->]. destruct (IH Hr) as [-> ->]. now split.
Qed.

Lemma traverse_cell (r : list string) : traverse cell (map JString r) = Some r.
Proof. induction r as [|f r IH]; [reflexivity |]. cbn. now rewrite IH. Qed.

Lemma records_data_of (rs : list (list string)) : records (data_of rs) = Some rs.
Proof.
  unfold records, data_of. induction rs as [|r rs IH]; [reflexivity |].
  cbn [map traverse record]. now rewrite traverse_cell, IH.
Qed.

Lemma forecast_rows_length (ok : string -> bool) (rs : list (list string)) :
  forallb (forecast_row ok) rs = true ->
  forallb (fun r => Nat.eqb (List.length r) (List.length headers)) rs = true.
Proof.
  induction rs as [|r rs IH]; [reflexivity |]. cbn [forallb]. intros H.
  apply andb_true_iff in H as [Hr Hrs]. unfold forecast_row in Hr.
  apply andb_true_iff in Hr as [Hr _]. rewrite (IH Hrs).
  change (List.length headers) with 7%nat. now rewrite Hr.
Qed.

(** Saving forecast rows writes their csv text at the path. *)
Lemma save_rows (ok : string -> bool) (rs : list (list string))
      (self : SpotWx) (w : World) (path : string) :
  csv_path self = PyStr path ->
  forallb (forecast_row ok) rs = true ->
  save (data_of rs) (self, w)
  = (Return tt, (self, write_file path (Csv.text (mkDataFrame headers rs)) w)).
Proof.
  intros Hp Hrs. unfold save, bind, lift, get_self, to_csv, pd_DataFrame.
  rewrite records_data_of, (forecast_rows_length ok rs Hrs). cbn [fst snd].
  now rewrite Hp.
Qed.

Lemma read_write_file (path content : string) (w : World) :
  read_file path (write_file path content w) = Some content.
Proof.
  unfold read_file, write_file. cbn [files lookup]. now rewrite String.eqb_refl.
Qed.

Lemma csv_record_unquoted (r : list string) :
  forallb unquoted r = true -> csv_record r = Str.join "," r.
Proof. intros H. unfold csv_record. now rewrite map_field_unquoted. Qed.

Lemma records_one_line (rs : list (list string)) :
  forallb (forecast_row unquoted) rs = true ->
  forallb (lacks Csv.LF) (map csv_record rs) = true.
Proof.
  induction rs as [|r rs IH]; [reflexivity |]. cbn [forallb map]. intros H.
  apply andb_true_iff in H as [Hr Hrs]. unfold forecast_row in Hr.
  apply andb_true_iff in Hr as [_ Hr]. rewrite (IH Hrs), andb_true_r.
  rewrite (csv_record_unquoted r Hr).
  apply lacks_join; [reflexivity | apply (forallb_unquoted_lacks r Hr)].
Qed.

Lemma split_records (rs : list (list string)) :
  forallb (forecast_row unquoted) rs = true ->
  map (Str.split Csv.comma) (map csv_record rs) = rs.
Proof.
  induction rs as [|r rs IH]; [reflexivity |]. cbn [forallb map]. intros H.
  apply andb_true_iff in H as [Hr Hrs]. unfold forecast_row in Hr.
  apply andb_true_iff in Hr as [Hlen Hr]. rewrite (IH Hrs). f_equal.
  rewrite (csv_record_unquoted r Hr).
  apply (split_join Csv.comma).
  - intros ->. discriminate Hlen.
  - apply (forallb_unquoted_lacks r Hr).
Qed.

(** The lines of the file: the header, then one record for each row. *)
Lemma text_records (rs : list (list string)) :
  forallb (forecast_row unquoted) rs = true ->
  lines (Csv.text (mkDataFrame headers rs)) = header_line :: map csv_record rs.
Proof.
  intros H. rewrite text_lines. cbn [columns rows].
  rewrite lines_concat; [reflexivity |].
  cbn [map forallb]. now rewrite (records_one_line rs H).
Qed.

(** C9, amended: forecast rows whose fields hold no comma, no double
    quote and no line break (carriage return or line feed) are saved as a
    file that, read again and split on the comma line by line after the
    header, gives the same rows. *)
Theorem csv_round_trip :
  forall (rs : list (list string)) (self : SpotWx) (w : World) (path : string),
    csv_path self = PyStr path ->
    forallb (forecast_row unquoted) rs = true ->
    exists (w' : World) (content : string),
      save (data_of rs) (self, w) = (Return tt, (self, w')) /\
      read_file path w' = Some content /\
      reread content = rs.
Proof.
  intros rs self w path Hp Hrs.
  exists (write_file path (Csv.text (mkDataFrame headers rs)) w),
         (Csv.text (mkDataFrame headers rs)).
  split; [now apply (save_rows unquoted) |].
  split; [apply read_write_file |].
  unfold reread. rewrite (text_records rs Hrs). cbn [tl].
  now apply split_records.
Qed.

(** ** Decoding the array literal *)


















(** ** From single to double quotes *)






(** ** Finding the literal in the script *)












Lemma search_cons (a : ascii) (s : string) :
  search_aDataSet (String a s)
  = match
      match Str.strip_prefix opening (String a s) with
      | Some r =>
          match Str.cut "];" r with
          | Some (body, _) => Some ("[" ++ body ++ "]")
          | None => None
          end
      | None => None
      end
    with
    | Some g => Some g
    | None => search_aDataSet s
    end.
Proof. reflexivity. Qed.




(** ** Extraction *)




Lemma forecast_row_inv (ok : string -> bool) (r : list string) :
  forecast_row ok r = true -> List.length r = 7%nat /\ forallb ok r = true /\ r <> [].
Proof.
  unfold forecast_row. intros H. apply andb_true_iff in H as [L H].
  apply Nat.eqb_eq in L. repeat split; try assumption.
  intros ->. discriminate L.
Qed.








(** The literal without white space and with single quotes is one of the
    layouts. *)
Lemma compact_values (rs : list (list string)) : values (compact rs) = rs.
Proof.
  unfold values, compact. rewrite map_map. cbn [spelt].
  rewrite <- (map_id rs) at 2. apply map_ext. intros r.
  rewrite map_map. cbn [inner]. apply map_id.
Qed.

Lemma compact_text (rs : list (list string)) :
  literal_text EmptyString (compact rs) = array_literal quote rs.
Proof.
  assert (F : forall f : string,
             field_as mark (mkField EmptyString quote f EmptyString)
             = quoted quote f).
  { intros f. unfold field_as, quoted. cbn [lead mark inner trail append].
    now rewrite append_nil_r. }
  assert (R : forall r : list string,
             row_as mark
               (mkRow EmptyString
                  (map (fun f => mkField EmptyString quote f EmptyString) r)
                  EmptyString)
             = row_literal quote r).
  { intros r. unfold row_as, row_literal. cbn [row_lead spelt row_trail].
    rewrite map_map, (map_ext _ _ F), append_nil_r. reflexivity. }
  unfold literal_text, literal_as, array_literal, compact.
  rewrite map_map, (map_ext _ _ R). reflexivity.
Qed.

Lemma compact_laid_out (rs : list (list string)) :
  forallb (forecast_row plain) rs = true ->
  laid_out plain EmptyString (compact rs) = true.
Proof.
  intros H. unfold laid_out, compact. cbn [blank Str.forallb andb].
  rewrite forallb_forall in *. intros x Hx.
  apply in_map_iff in Hx as [r [<- Hr]].
  destruct (forecast_row_inv plain r (H r Hr)) as (L & Hp & _).
  unfold laid_out_row. cbn [row_lead row_trail spelt blank Str.forallb andb].
  rewrite length_map, L. cbn [Nat.eqb andb].
  rewrite forallb_forall in *. intros y Hy.
  apply in_map_iff in Hy as [f [<- Hf]].
  unfold laid_out_field. cbn [lead trail mark inner blank Str.forallb andb].
  now rewrite (Hp f Hf).
Qed.

Section Extraction.

Variable requests_get : string -> outcome response.
Variable html_parser : string -> list node.
Variable open_w : string -> outcome string.
Variable pandas : frame -> pyval -> option string * outcome unit.



End Extraction.

(** ** Concrete runs *)

Lemma create_url_deterministic_witness :
  created_url example empty_world
  = created_url
      (with_url (__init__ (PyStr "other.csv") (PyStr "gfs") (PyFloat 51.0)
                   (PyFloat (-114.0)) (PyStr "America/Edmonton") (PyStr "table")))
      (answered example_url saved empty_world).
Proof.
  apply create_url_deterministic; reflexivity.
Defined.

Lemma six_arguments_never_pass_validation_witness :
  exists csv mr la lo tz d : string,
    argv_csv = [csv; mr; la; lo; tz; d] /\
    main offline no_nodes own_file refuses argv_csv empty_world
    = (Uncaught (argv_error csv mr), Some (of_argv csv mr la lo tz d), empty_world) /\
    lat (of_argv csv mr la lo tz d) = PyStr la /\
    lon (of_argv csv mr la lo tz d) = PyStr lo /\
    url (of_argv csv mr la lo tz d) = None /\
    (exists msg, argv_error csv mr = ValueError msg) /\
    (Str.endswith ".csv" csv = false -> argv_error csv mr = must_be_csv) /\
    (Str.endswith ".csv" csv = true -> ~ In mr (keys model_dict) ->
     argv_error csv mr = must_be_one_of "model_request" (keys model_dict)) /\
    (Str.endswith ".csv" csv = true -> In mr (keys model_dict) ->
     argv_error csv mr = must_be_float "lat").
Proof.
  apply (six_arguments_never_pass_validation offline no_nodes own_file refuses argv_csv empty_world).
  reflexivity.
Defined.

(** C3 fails as stated: with a path that does not end in [.csv] the run
    ends in the error on [csv_path], not in the one on [lat]. *)
Lemma not_every_run_fails_on_lat : ~ every_run_fails_on_lat.
Proof.
  intros H.
  destruct (H offline no_nodes own_file refuses argv_txt empty_world eq_refl) as [self [E _]].
  vm_compute in E. discriminate E.
Qed.

Lemma validator_rejects_invalid_input_witness :
  fst (_verify_inputs (bad_path, empty_world)) = Raise must_be_csv /\
  fst (_verify_inputs (bad_model, empty_world))
  = Raise (must_be_one_of "model_request" (keys model_dict)) /\
  fst (_verify_inputs (bad_lat, empty_world)) = Raise (must_be_float "lat") /\
  fst (_verify_inputs (bad_lon, empty_world)) = Raise (must_be_float "lon") /\
  fst (_verify_inputs (bad_timezone, empty_world))
  = Raise (must_be_one_of "timezone" timezone_list) /\
  fst (_verify_inputs (bad_display, empty_world))
  = Raise (must_be_one_of "display" display_list) /\
  getSpotWx offline no_nodes own_file refuses (bad_lat, empty_world)
  = (Raise (must_be_float "lat"), (bad_lat, empty_world)).
Proof.
  assert (N : forall (s : string) (l : list string),
             existsb (String.eqb s) l = false -> ~ In s l).
  { intros s l E Hin.
    assert (X : existsb (String.eqb s) l = true).
    { apply existsb_exists. exists s. split; [assumption | apply String.eqb_refl]. }
    rewrite X in E. discriminate E. }
  repeat match goal with |- _ /\ _ => split end.
  - apply (validator_rejects_invalid_input offline no_nodes own_file refuses bad_path empty_world)
      with (p := "out.txt"); reflexivity.
  - apply (validator_rejects_invalid_input offline no_nodes own_file refuses bad_model empty_world)
      with (mr := "ecmwf"); try reflexivity. apply N. reflexivity.
  - apply (validator_rejects_invalid_input offline no_nodes own_file refuses bad_lat empty_world);
      reflexivity.
  - apply (validator_rejects_invalid_input offline no_nodes own_file refuses bad_lon empty_world);
      reflexivity.
  - apply (validator_rejects_invalid_input offline no_nodes own_file refuses bad_timezone empty_world)
      with (tz := "Europe/Paris"); try reflexivity. apply N. reflexivity.
  - apply (validator_rejects_invalid_input offline no_nodes own_file refuses bad_display empty_world)
      with (d := "chart"); try reflexivity. apply N. reflexivity.
  - apply (validator_rejects_invalid_input offline no_nodes own_file refuses bad_lat empty_world).
    apply (validator_rejects_invalid_input offline no_nodes own_file refuses bad_lat empty_world);
      reflexivity.
Defined.

Lemma transport_failure_reported_witness :
  404 <> 200 /\
  getSpotWx gone no_nodes own_file refuses (example, empty_world)
  = (Return tt,
     (with_url example, answered example_url (failed 404) empty_world)) /\
  _get_csv gone no_nodes own_file refuses (with_url example, empty_world)
  = (Return tt,
     (with_url example, answered example_url (failed 404) empty_world)).
Proof.
  assert (S : status_code (mkResponse 404 "Not Found") <> 200) by discriminate.
  split; [discriminate |]. split.
  - apply (transport_failure_reported gone no_nodes own_file refuses example empty_world
             example_url (mkResponse 404 "Not Found") S); reflexivity.
  - apply (transport_failure_reported gone no_nodes own_file refuses (with_url example) empty_world
             example_url (mkResponse 404 "Not Found") S); reflexivity.
Defined.

Lemma bare_page_reported_missing :
  _get_csv bare bare_soup own_file refuses (with_url example, empty_world)
  = (Return tt, (with_url example, answered example_url not_found empty_world)) /\
  files (answered example_url not_found empty_world) = files empty_world /\
  (forall status : Z, not_found <> failed status).
Proof.
  apply (extraction_miss_reported bare bare_soup own_file refuses (with_url example) empty_world
           example_url (mkResponse 200 bare_page)); try reflexivity.
  intros children s Hin Hs. cbn in Hin.
  repeat (destruct Hin as [Hin | Hin]; try discriminate Hin);
    try contradiction.
  injection Hin as <-. injection Hs as <-. reflexivity.
Qed.

Lemma zone_never_set_title_for_meteocode_witness :
  valid meteocode = true /\
  url (fst (snd (getSpotWx offline no_nodes own_file refuses (meteocode, empty_world))))
  = Some meteocode_url /\
  (exists rest : string,
     built_url meteocode = base_url ++ "model=meteocode&title=FPVR14" ++ rest) /\
  ~ In "zone" (Query.keys meteocode_url) /\
  Str.contains "zone=" meteocode_url = false /\
  In "title" (Query.keys meteocode_url) /\
  Str.contains "title=" meteocode_url = true.
Proof.
  assert (V : valid meteocode = true) by reflexivity.
  pose proof (zone_never_set_title_for_meteocode offline no_nodes own_file refuses
                (PyStr "out.csv") (PyStr "short_meteocode") (PyFloat 51.0)
                (PyFloat (-114.0)) (PyStr "America/Edmonton") (PyStr "table")
                empty_world) as T.
  cbv zeta in T. destruct T as (_ & _ & U & _ & S & _ & K).
  assert (E : url (fst (snd (getSpotWx offline no_nodes own_file refuses
                               (meteocode, empty_world))))
              = Some meteocode_url).
  { unfold meteocode. rewrite (U V). vm_compute. reflexivity. }
  destruct (K meteocode_url E) as (Z & Zt & Kt & Ct).
  split; [exact V |]. split; [exact E |]. split; [exact (S V eq_refl) |].
  split; [exact Z |]. split; [exact Zt |].
  split; [apply Kt | apply Ct]; left; reflexivity.
Defined.

Lemma csv_round_trip_witness :
  exists (w' : World) (content : string),
    save (data_of [plain_row; plain_row]) (example, empty_world)
    = (Return tt, (example, w')) /\
    read_file "out.csv" w' = Some content /\
    reread content = [plain_row; plain_row].
Proof.
  apply csv_round_trip; reflexivity.
Defined.

(** C9 fails as stated: a field with a line feed has no comma and no
    quote, is written inside quotes over two lines, and is not read back. *)
Lemma round_trip_breaks_on_line_feed : ~ round_trip_as_stated.
Proof.
  intros H.
  destruct (H [two_line_row] example empty_world "out.csv" eq_refl eq_refl)
    as (w' & content & Hs & Hr & Hrr).
  vm_compute in Hs. injection Hs as <-.
  vm_compute in Hr. injection Hr as <-.
  vm_compute in Hrr. discriminate Hrr.
Qed.



(** The same claim fails on a backslash and on a control character, which
    [json.loads] refuses inside a string. *)
Lemma extraction_breaks_on_backslash : ~ extraction_as_stated.
Proof.
  intros H.
  destruct (H (served [backslash_row]) (script_soup [backslash_row]) own_file refuses
              [backslash_row]
              (with_url example) empty_world example_url "out.csv"
              (mkResponse 200 ("<script>" ++ assignment [backslash_row] ++ "</script>"))
              (Tag "script" [Text (assignment [backslash_row])])
              EmptyString EmptyString
              eq_refl eq_refl eq_refl eq_refl eq_refl eq_refl eq_refl eq_refl)
    as (w' & file & content & Hrun & _).
  vm_compute in Hrun. discriminate Hrun.
Qed.

Lemma extraction_breaks_on_tab : ~ extraction_as_stated.
Proof.
  intros H.
  destruct (H (served [tab_row]) (script_soup [tab_row]) own_file refuses
              [tab_row]
              (with_url example) empty_world example_url "out.csv"
              (mkResponse 200 ("<script>" ++ assignment [tab_row] ++ "</script>"))
              (Tag "script" [Text (assignment [tab_row])])
              EmptyString EmptyString
              eq_refl eq_refl eq_refl eq_refl eq_refl eq_refl eq_refl eq_refl)
    as (w' & file & content & Hrun & _).
  vm_compute in Hrun. discriminate Hrun.
Qed.

(** Nor does it hold where the file cannot be opened: in a directory
    that is missing, [open] raises, and so does the run. *)
Lemma extraction_breaks_on_missing_directory : ~ extraction_as_stated.
Proof.
  intros H.
  destruct (H (served [plain_row]) (script_soup [plain_row]) one_directory refuses
              [plain_row]
              (with_url lost) empty_world example_url "missing/out.csv"
              (mkResponse 200 ("<script>" ++ assignment [plain_row] ++ "</script>"))
              (Tag "script" [Text (assignment [plain_row])])
              EmptyString EmptyString
              eq_refl eq_refl eq_refl eq_refl eq_refl eq_refl eq_refl eq_refl)
    as (w' & file & content & Hrun & _).
  vm_compute in Hrun. discriminate Hrun.
Qed.

(** * Further properties of the code *)

(** ** [__main__] and the validator *)

Ltac run_tests :=
  cbv beta iota delta
    [_verify_inputs csv_path_ok model_request_ok timezone_ok display_ok checks
     bind get_self raise ret fst snd
     csv_path model_request lat lon timezone display] in *;
  repeat match goal with
         | H : _ && _ = true |- _ => apply andb_true_iff in H; destruct H
         end;
  repeat match goal with
         | H : ?b = _ |- context [if negb ?b then _ else _] =>
             rewrite H; cbn [negb bind raise ret fst snd]
         end.

Section More.

Variable requests_get : string -> outcome response.
Variable html_parser : string -> list node.
Variable open_w : string -> outcome string.
Variable pandas : frame -> pyval -> option string * outcome unit.

(** X1: with any number of arguments other than six, the script prints the
    usage text and exits with status 1: no object is built, nothing is
    requested or written.  The usage text asks for six parameters and
    ends in a bracketed list of five names, csv_path, model_request, lat,
    lon and display: [timezone] occurs nowhere in it. *)
Theorem wrong_argument_count_exits :
  forall (argv : list string) (w : World),
    List.length argv <> 6%nat ->
    main requests_get html_parser open_w pandas argv w
    = (Exit 1, None, mkWorld (requests w) (stdout w ++ [usage]) (files w)) /\
    Str.startswith "Six parameters are required" usage = true /\
    (exists head : string,
       usage
       = head ++ "["
         ++ Str.join ", " ["csv_path"; "model_request"; "lat"; "lon"; "display"]
         ++ "]." /\
       lacks "[" head = true) /\
    Str.contains "timezone" usage = false.
Proof.
  intros argv w L. split; [| split; [reflexivity | split; [| reflexivity]]].
  - destruct argv as [|a [|b [|c [|d [|e [|f [|g argv]]]]]]]; try reflexivity.
    exfalso. apply L. reflexivity.
  - exists ("Six parameters are required to request a SpotWx forecast dataset (as csv):"
            ++ newline).
    split; reflexivity.
Qed.

(** X2: a parameter that must be a string and is not one is answered by a
    [TypeError] that names it, once the parameters before it pass. *)
Theorem validator_type_errors :
  forall (self : SpotWx) (w : World),
    let verdict := fst (_verify_inputs (self, w)) in
    (isinstance_str (csv_path self) = false ->
     verdict = Raise (must_be_str "csv_path")) /\
    (csv_path_ok self = true -> isinstance_str (model_request self) = false ->
     verdict = Raise (must_be_str "model_request")) /\
    (csv_path_ok self = true -> model_request_ok self = true ->
     isinstance_float (lat self) = true -> isinstance_float (lon self) = true ->
     isinstance_str (timezone self) = false ->
     verdict = Raise (must_be_str "timezone")) /\
    (csv_path_ok self = true -> model_request_ok self = true ->
     isinstance_float (lat self) = true -> isinstance_float (lon self) = true ->
     timezone_ok self = true -> isinstance_str (display self) = false ->
     verdict = Raise (must_be_str "display")) /\
    (forall name, exists msg,
       must_be_str name = TypeError msg /\
       Str.contains (dquote ++ name ++ dquote) msg = true).
Proof.
  intros self w verdict. unfold verdict. clear verdict.
  destruct self as [p mr la lo tz d U t z m u].
  repeat match goal with |- _ /\ _ => split end.
  - intros H. run_tests. reflexivity.
  - intros Hc H. run_tests. reflexivity.
  - intros Hc Hm Hla Hlo H. run_tests. reflexivity.
  - intros Hc Hm Hla Hlo Htz H. run_tests. reflexivity.
  - intros name. eexists. split; [reflexivity |].
    replace (parameter name "must be a str datatype")
      with ("The " ++ (dquote ++ name ++ dquote)
            ++ " input parameter must be a str datatype")
      by (unfold parameter; rewrite !append_assoc; reflexivity).
    apply contains_append.
Qed.

Ltac blame n :=
  match n with
  | 0%nat => eexists [], _, _
  | 1%nat => eexists [_], _, _
  | 2%nat => eexists [_; _], _, _
  | 3%nat => eexists [_; _; _], _, _
  | 4%nat => eexists [_; _; _; _], _, _
  | 5%nat => eexists [_; _; _; _; _], _, _
  end;
  (split; [reflexivity |]); (split; [reflexivity |]);
  (split; [vm_compute; reflexivity |]);
  first [ eexists; left; reflexivity | eexists; right; reflexivity ].

(** X3: every error of the validator is a [TypeError] or a [ValueError] that
    names, in double quotes, the first parameter that fails its test, in
    the order csv_path, model_request, lat, lon, timezone, display: the
    parameters before it all pass. *)
Theorem error_names_first_failing_parameter :
  forall (self : SpotWx) (w : World) (e : exn),
    fst (_verify_inputs (self, w)) = Raise e ->
    exists (before : list (string * bool)) (name : string)
           (after : list (string * bool)),
      checks self = (before ++ (name, false) :: after)%list /\
      forallb snd before = true /\
      names name e = true /\
      (exists msg, e = TypeError msg \/ e = ValueError msg).
Proof.
  intros self w e. destruct self as [p mr la lo tz d U t z m u].
  cbv beta iota delta
    [_verify_inputs csv_path_ok model_request_ok timezone_ok display_ok checks
     bind get_self raise ret fst snd
     csv_path model_request lat lon timezone display].
  repeat match goal with
         | |- context [if negb ?b then _ else _] =>
             destruct b eqn:?; cbn [negb bind raise ret andb fst snd]
         end;
    intros H; try discriminate H; injection H as <-;
    first [ solve [blame 0%nat] | solve [blame 1%nat] | solve [blame 2%nat]
          | solve [blame 3%nat] | solve [blame 4%nat] | solve [blame 5%nat] ].
Qed.

(** X4: [__init__] sets [URL], [_get_csv] reads [url]: on an object on which
    [_create_url] has not run, [_get_csv] raises an [AttributeError]
    before it sends anything. *)
Theorem get_csv_needs_create_url :
  forall (self : SpotWx) (w : World),
    url self = None ->
    _get_csv requests_get html_parser open_w pandas (self, w)
    = (Raise (no_attribute "url"), (self, w)).
Proof.
  intros self w H. unfold _get_csv, bind, attr_url. cbn [fst snd].
  now rewrite H.
Qed.





(** ** The pattern of [_get_csv] *)

Lemma strip_prefix_sound (p : string) :
  forall s r : string, Str.strip_prefix p s = Some r -> s = p ++ r.
Proof.
  induction p as [|a p IH]; intros s r H.
  - cbn in H. now injection H as ->.
  - destruct s as [|b s]; [discriminate H |]. cbn [Str.strip_prefix] in H.
    destruct (Ascii.eqb_spec a b) as [-> | N]; [| discriminate H].
    cbn [append]. f_equal. now apply IH.
Qed.

Lemma startswith_append (p x y : string) :
  Str.startswith p x = true -> Str.startswith p (x ++ y) = true.
Proof.
  revert x. induction p as [|a p IH]; intros x H; [apply startswith_nil |].
  destruct x as [|b x]; [discriminate H |].
  cbn [append]. rewrite startswith_cons in *.
  apply andb_true_iff in H as [Hab Hp]. now rewrite Hab, (IH x Hp).
Qed.

Lemma startswith_strip (p s : string) :
  Str.startswith p s = false <-> Str.strip_prefix p s = None.
Proof.
  unfold Str.startswith. destruct (Str.strip_prefix p s); split; congruence.
Qed.

Lemma cut_sound (p : string) :
  p <> EmptyString ->
  forall s l r : string,
    Str.cut p s = Some (l, r) -> s = l ++ p ++ r /\ Str.contains p l = false.
Proof.
  intros Hp. induction s as [|a s IH]; intros l r H.
  - destruct p; [congruence | discriminate H].
  - rewrite cut_cons in H.
    destruct (Str.strip_prefix p (String a s)) as [r0|] eqn:E.
    + injection H as <- <-. split; [exact (strip_prefix_sound p _ _ E) |].
      destruct p; [congruence | reflexivity].
    + destruct (Str.cut p s) as [[l' r']|] eqn:C; [| discriminate H].
      injection H as <- <-. destruct (IH l' r' eq_refl) as [-> Hl].
      split; [reflexivity |].
      rewrite contains_cons, Hl, orb_false_r.
      destruct (Str.startswith p (String a l')) eqn:S; [| reflexivity].
      apply (startswith_append p _ (p ++ r')) in S.
      apply startswith_strip in E. cbn [append] in S. congruence.
Qed.

Lemma cut_none (p s : string) :
  Str.cut p s = None <-> Str.contains p s = false.
Proof.
  induction s as [|a s IH].
  - cbn [Str.cut Str.contains]. rewrite orb_false_r. unfold Str.startswith.
    destruct (Str.strip_prefix p EmptyString); split; congruence.
  - rewrite cut_cons, contains_cons. unfold Str.startswith.
    destruct (Str.strip_prefix p (String a s)).
    + split; discriminate.
    + cbn [orb]. rewrite <- IH.
      destruct (Str.cut p s) as [[l r]|]; split; congruence.
Qed.

Lemma search_none_suffix (a s : string) :
  search_aDataSet (a ++ s) = None -> search_aDataSet s = None.
Proof.
  induction a as [|x a IH]; intros H; [exact H |].
  cbn [append] in H. rewrite search_cons in H.
  destruct (Str.strip_prefix opening (String x (a ++ s))) as [r|].
  - destruct (Str.cut "];" r) as [[body post]|]; [discriminate H | now apply IH].
  - now apply IH.
Qed.

Lemma search_nil : search_aDataSet EmptyString = None.
Proof. reflexivity. Qed.

(** X7: what the pattern gives is what stands in the text: the group is a
    bracketed text that follows [var aDataSet = ] and is followed by a
    semicolon, and it stops at the first closing bracket before a
    semicolon. *)
Theorem search_finds_an_assignment :
  forall s g : string,
    search_aDataSet s = Some g ->
    exists pre body post : string,
      s = pre ++ "var aDataSet = " ++ g ++ ";" ++ post /\
      g = "[" ++ body ++ "]" /\
      Str.contains "];" body = false.
Proof.
  induction s as [|a s IH]; intros g H; [discriminate H |].
  rewrite search_cons in H.
  destruct (Str.strip_prefix opening (String a s)) as [r|] eqn:E.
  - destruct (Str.cut "];" r) as [[body post]|] eqn:C.
    + injection H as <-. apply strip_prefix_sound in E.
      destruct (cut_sound "];" ltac:(discriminate) r body post C) as [-> Hb].
      exists EmptyString, body, post. split; [| split; [reflexivity | exact Hb]].
      rewrite E. unfold opening. cbn [append]. rewrite ?append_assoc.
      cbn [append]. reflexivity.
    + destruct (IH g H) as (pre & body & post & -> & Hg & Hb).
      exists (String a pre), body, post. repeat split; assumption.
  - destruct (IH g H) as (pre & body & post & -> & Hg & Hb).
    exists (String a pre), body, post. repeat split; assumption.
Qed.

Lemma search_none_iff (s : string) :
  search_aDataSet s = None <->
  (forall pre rest : string,
     s = pre ++ "var aDataSet = [" ++ rest -> Str.contains "];" rest = false).
Proof.
  split.
  - intros H pre rest ->. apply search_none_suffix in H.
    change ("var aDataSet = [" ++ rest) with (String "v" ("ar aDataSet = [" ++ rest)) in H.
    rewrite search_cons in H.
    change (String "v" ("ar aDataSet = [" ++ rest)) with (opening ++ rest) in H.
    rewrite strip_prefix_append in H.
    destruct (Str.cut "];" rest) as [[body post]|] eqn:C; [discriminate H |].
    now apply cut_none.
  - induction s as [|a s IH]; intros H; [reflexivity |].
    rewrite search_cons.
    assert (R : search_aDataSet s = None).
    { apply IH. intros pre rest ->. apply (H (String a pre) rest). reflexivity. }
    destruct (Str.strip_prefix opening (String a s)) as [r|] eqn:E; [| exact R].
    apply strip_prefix_sound in E.
    assert (C : Str.contains "];" r = false) by (apply (H EmptyString r); exact E).
    apply cut_none in C. now rewrite C.
Qed.

(** X8: the pattern finds nothing exactly when no [var aDataSet = [] in the
    text has a closing bracket with a semicolon somewhere after it. *)
Theorem search_fails_without_closing :
  forall s : string,
    search_aDataSet s = None <->
    (forall pre rest : string,
       s = pre ++ "var aDataSet = [" ++ rest -> Str.contains "];" rest = false).
Proof. exact search_none_iff. Qed.

Lemma contains_suffix (p a b : string) :
  Str.contains p b = true -> Str.contains p (a ++ b) = true.
Proof.
  intros H. induction a as [|x a IH]; [exact H |].
  cbn [append]. rewrite contains_cons, IH. apply orb_true_r.
Qed.

Lemma search_none_without (s : string) :
  Str.contains opening s = false \/ Str.contains "];" s = false ->
  search_aDataSet s = None.
Proof.
  intros H. apply search_none_iff. intros pre rest ->.
  destruct H as [H | H].
  - fold opening in H. rewrite contains_append in H. discriminate H.
  - destruct (Str.contains "];" rest) eqn:C; [| reflexivity].
    pose proof (contains_suffix "];" "var aDataSet = [" rest C) as C1.
    rewrite (contains_suffix "];" pre _ C1) in H. discriminate H.
Qed.

(** ** How a run of [_get_csv] can end *)

Lemma get_csv_cases (self : SpotWx) (w : World) (u : string) :
  url self = Some u ->
  get_csv_end open_w self w u
    (_get_csv requests_get html_parser open_w pandas (self, w)).
Proof.
  intros Hu. unfold _get_csv, bind, attr_url, get. cbn [fst snd]. rewrite Hu.
  cbv beta iota. cbn [fst snd].
  destruct (requests_get u) as [r|e]; [| exact (Raised open_w self w u e)].
  destruct (status_code r =? 200) eqn:S.
  2:{ apply Z.eqb_neq in S. exact (Failed open_w self w u (status_code r) S). }
  destruct (soup_find "var aDataSet =" (html_parser (text r))) as [script|];
    [| exact (Missed open_w self w u)].
  destruct (node_string script) as [script_text|];
    [| exact (Raised open_w self w u _)].
  destruct (search_aDataSet script_text) as [json_text|];
    [| exact (Raised open_w self w u _)].
  unfold lift at 1.
  destruct (Json.loads _) as [data|e]; [| exact (Raised open_w self w u e)].
  cbv zeta. unfold get_self, to_csv, write, lift, ret, print. cbn [fst snd].
  destruct (pd_DataFrame data headers) as [d | other];
    destruct (csv_path self) as [| | | | path] eqn:P; cbv beta iota;
    try destruct (pandas _ _) as [[content|] [[]|e]];
    try destruct (open_w path) as [file|e'] eqn:O;
    cbn [fst snd];
    first [ exact (Unsaved open_w self w u)
          | exact (Saved open_w self w u _ _ _ P O)
          | exact (Torn open_w self w u _ _ _ _ P O)
          | exact (Raised open_w self w u _) ].
Qed.

Lemma lookup_other (other path content : string) (l : list (string * string)) :
  other <> path ->
  lookup other
    ((path, content) :: filter (fun f => negb (String.eqb (fst f) path)) l)
  = lookup other l.
Proof.
  intros N. cbn [lookup]. apply String.eqb_neq in N. rewrite N.
  induction l as [|[k v] l IH]; [reflexivity |]. cbn [filter fst lookup].
  destruct (String.eqb_spec k path) as [-> | Nk]; cbn [negb].
  - rewrite N. exact IH.
  - cbn [lookup]. now rewrite IH.
Qed.

(** X9: a script block that holds [var aDataSet =] but no match of the whole
    pattern (no opening bracket right after it, or no closing bracket with
    a semicolon) is not reported as missing data: [_get_csv] raises an
    [AttributeError] once the request is sent, prints nothing and writes
    nothing. *)
Theorem script_without_literal_raises :
  forall (self : SpotWx) (w : World) (u : string) (r : response)
         (script : node) (s : string),
    url self = Some u -> requests_get u = Return r -> status_code r = 200 ->
    soup_find "var aDataSet =" (html_parser (text r)) = Some script ->
    node_string script = Some s ->
    Str.contains "var aDataSet = [" s = false \/ Str.contains "];" s = false ->
    _get_csv requests_get html_parser open_w pandas (self, w)
    = (Raise no_group, (self, sent u w)).
Proof.
  intros self w u r script s Hu Hr Hs Hf Hn Hnone.
  unfold _get_csv, bind, attr_url, get. cbn [fst snd].
  rewrite Hu, Hr, Hs, Hf, Hn, (search_none_without s Hnone). reflexivity.
Qed.

(** X10: a run on valid parameters sends exactly one request, to the URL that
    [_create_url] built, however the run goes on; a run on invalid
    parameters leaves the world as it is. *)
Theorem one_request_per_run :
  forall (self : SpotWx) (w : World),
    let w' := snd (snd (getSpotWx requests_get html_parser open_w pandas (self, w))) in
    (valid self = true -> requests w' = (requests w ++ [built_url self])%list) /\
    (valid self = false -> w' = w).
Proof.
  intros self w w'. unfold w'. split; intros V.
  - rewrite (getSpotWx_valid requests_get html_parser open_w pandas self w V).
    pose proof (get_csv_cases (with_url self) w (built_url self) eq_refl) as E.
    destruct E; reflexivity.
  - destruct (verify_inputs_raise self w V) as [e He].
    rewrite (getSpotWx_invalid requests_get html_parser open_w pandas self w e);
      [reflexivity | now rewrite He].
Qed.

(** X11: a run that raises has printed nothing.  A run that returns has
    printed exactly one line: that the file was saved, that the variable
    was not found, or that the request failed with a status other than
    200. *)
Theorem run_prints_one_line_or_raises :
  forall (self : SpotWx) (w : World),
    let res := getSpotWx requests_get html_parser open_w pandas (self, w) in
    let w' := snd (snd res) in
    (forall e, fst res = Raise e -> stdout w' = stdout w) /\
    (fst res = Return tt ->
     exists line : string,
       stdout w' = (stdout w ++ [line])%list /\
       (line = saved \/ line = not_found \/
        exists status : Z, status <> 200 /\ line = failed status)).
Proof.
  intros self w res w'. unfold w', res. destruct (valid self) eqn:V.
  - rewrite (getSpotWx_valid requests_get html_parser open_w pandas self w V).
    pose proof (get_csv_cases (with_url self) w (built_url self) eq_refl) as E.
    destruct E as [e | status Hs | | path file content P O | | path file content e P O];
      cbn [fst snd]; split;
      try (intros e' H; discriminate H); try (intros H; discriminate H).
    + intros e' _. reflexivity.
    + intros _. exists (failed status). split; [reflexivity |].
      right. right. now exists status.
    + intros _. exists not_found. split; [reflexivity |]. right. now left.
    + intros _. exists saved. split; [reflexivity |]. now left.
    + intros _. exists saved. split; [reflexivity |]. now left.
    + intros e' _. reflexivity.
  - destruct (verify_inputs_raise self w V) as [e He].
    rewrite (getSpotWx_invalid requests_get html_parser open_w pandas self w e)
      by now rewrite He.
    cbn [fst snd]. split; [intros e' _; reflexivity | intros H; discriminate H].
Qed.

(** X12: a run changes one file at most, the one that [open] gives for
    [csv_path], and only on valid parameters; every other file is as it
    was.  That file can be left changed by a run that raises. *)
Theorem run_changes_one_file_at_most :
  forall (self : SpotWx) (w : World),
    let w' := snd (snd (getSpotWx requests_get html_parser open_w pandas (self, w))) in
    files w' = files w \/
    exists path file content : string,
      valid self = true /\
      csv_path self = PyStr path /\
      open_w path = Return file /\
      read_file file w' = Some content /\
      forall other : string,
        other <> file -> read_file other w' = read_file other w.
Proof.
  intros self w w'. unfold w'. destruct (valid self) eqn:V.
  - rewrite (getSpotWx_valid requests_get html_parser open_w pandas self w V).
    pose proof (get_csv_cases (with_url self) w (built_url self) eq_refl) as E.
    destruct E as [e | status Hs | | path file content P O | | path file content e P O];
      cbn [fst snd]; try (left; reflexivity);
      right; exists path, file, content;
      (split; [reflexivity |]); (split; [exact P |]); (split; [exact O |]);
      (split; [apply read_write_file |]);
      intros other N; unfold read_file, write_file, answered, sent; cbn [files];
      now apply lookup_other.
  - destruct (verify_inputs_raise self w V) as [e He].
    rewrite (getSpotWx_invalid requests_get html_parser open_w pandas self w e)
      by now rewrite He.
    left. reflexivity.
Qed.

(** X13: the request is not guarded: when [requests.get] raises, a run on valid
    parameters ends in that exception, with the URL built and the request
    sent, nothing printed and nothing written. *)
Theorem request_exception_propagates :
  forall (self : SpotWx) (w : World) (e : exn),
    valid self = true -> requests_get (built_url self) = Raise e ->
    getSpotWx requests_get html_parser open_w pandas (self, w)
    = (Raise e, (with_url self, sent (built_url self) w)).
Proof.
  intros self w e V H.
  rewrite (getSpotWx_valid requests_get html_parser open_w pandas self w V).
  unfold _get_csv, bind, attr_url, get. cbn [fst snd with_url set_url url].
  now rewrite H.
Qed.

End More.

(** ** The query string of a valid object *)

Lemma query_pair_text (kv : string * string) :
  lacks equals (fst kv) = true -> query_pair (pair_text kv) = kv.
Proof.
  intros H. unfold query_pair, pair_text.
  change ("=" ++ snd kv) with (String equals (snd kv)).
  change "="%string with (String equals EmptyString).
  rewrite (cut_char equals _ _ H). now destruct kv.
Qed.

Lemma pairs_query_text (l : list (string * string)) :
  l <> [] -> forallb well_formed l = true ->
  map query_pair (Str.split ampersand (query_text l)) = l.
Proof.
  intros N W. unfold query_text.
  change "&"%string with (String ampersand EmptyString).
  rewrite split_join.
  - clear N. induction l as [|kv l IH]; [reflexivity |].
    cbn [forallb] in W. apply andb_true_iff in W as [Wkv Wl].
    cbn [map]. rewrite (IH Wl). f_equal. apply query_pair_text.
    unfold well_formed in Wkv. apply andb_true_iff in Wkv as [Wkv _].
    now apply andb_true_iff in Wkv as [Wkv _].
  - destruct l; [congruence | discriminate].
  - clear N. induction l as [|kv l IH]; [reflexivity |].
    cbn [forallb] in W. apply andb_true_iff in W as [Wkv Wl].
    cbn [map forallb]. now rewrite (lacks_pair_text kv Wkv), (IH Wl).
Qed.

Lemma not_in_keys (k : string) (l : list string) :
  existsb (String.eqb k) l = false -> ~ In k l.
Proof.
  intros H Hin. assert (E : existsb (String.eqb k) l = true).
  { apply existsb_exists. exists k. split; [exact Hin | apply String.eqb_refl]. }
  congruence.
Qed.

(** X14: the URL of a valid object can be read back: cutting its query string
    at every [&] and each segment at its first [=] gives exactly the
    registry code of the model, the title code of a meteocode model, the
    [repr] of each coordinate that is not zero, the time zone and the
    display mode, in this order.  No value is escaped, and none has to
    be. *)
Theorem url_reads_back :
  forall self : SpotWx,
    valid self = true -> truthy (zone self) = false ->
    exists (mr code : string) (x y : float) (tz d : string),
      model_request self = PyStr mr /\ lat self = PyFloat x /\
      lon self = PyFloat y /\ timezone self = PyStr tz /\
      display self = PyStr d /\ lookup mr model_dict = Some code /\
      query_pairs (built_url self)
      = parameters code (lookup mr title_dict) x y tz d.
Proof.
  intros self V Z.
  destruct (valid_url_parameters self V Z)
    as (mr & code & x & y & tz & d & Hmr & Hx & Hy & Htz & Hd & Hc & Hu & W).
  exists mr, code, x, y, tz, d.
  repeat match goal with |- _ /\ _ => split end; try assumption.
  unfold query_pairs. rewrite Hu, query_base.
  apply pairs_query_text; [| exact W].
  unfold parameters. discriminate.
Qed.

(** X15: the URL of a valid object has a [lat] parameter exactly when the
    latitude differs from zero, and a [lon] parameter exactly when the
    longitude does: a coordinate of [0.0] or [-0.0] is left out of the
    request, every other one is sent. *)
Theorem coordinate_sent_unless_zero :
  forall self : SpotWx,
    valid self = true -> truthy (zone self) = false ->
    exists x y : float,
      lat self = PyFloat x /\ lon self = PyFloat y /\
      (In "lat" (Query.keys (built_url self)) <-> PrimFloat.eqb x 0 = false) /\
      (In "lon" (Query.keys (built_url self)) <-> PrimFloat.eqb y 0 = false).
Proof.
  intros self V Z.
  destruct (valid_url_keys self V Z) as (mr & x & y & _ & Hx & Hy & K).
  exists x, y. split; [exact Hx |]. split; [exact Hy |]. rewrite K.
  unfold PyFloat.truthy.
  destruct (lookup mr title_dict); destruct (PrimFloat.eqb x 0);
    destruct (PrimFloat.eqb y 0); cbn [negb app];
    split; split; intros H;
      try reflexivity; try discriminate H;
      try (exfalso; revert H; apply not_in_keys; reflexivity);
      cbn [In]; tauto.
Qed.


(** ** The further properties at concrete inputs *)

Lemma wrong_argument_count_exits_witness :
  List.length argv_five <> 6%nat /\
  main offline no_nodes own_file refuses argv_five empty_world
  = (Exit 1, None, mkWorld [] [usage] []) /\
  Str.startswith "Six parameters are required" usage = true /\
  (exists head : string,
     usage
     = head ++ "["
       ++ Str.join ", " ["csv_path"; "model_request"; "lat"; "lon"; "display"]
       ++ "]." /\
     lacks "[" head = true) /\
  Str.contains "timezone" usage = false.
Proof.
  assert (L : List.length argv_five <> 6%nat) by discriminate.
  split; [exact L |].
  exact (wrong_argument_count_exits offline no_nodes own_file refuses argv_five empty_world L).
Defined.

Lemma validator_type_errors_witness :
  fst (_verify_inputs (none_path, empty_world)) = Raise (must_be_str "csv_path") /\
  fst (_verify_inputs (int_model, empty_world)) = Raise (must_be_str "model_request") /\
  fst (_verify_inputs (none_timezone, empty_world)) = Raise (must_be_str "timezone") /\
  fst (_verify_inputs (bool_display, empty_world)) = Raise (must_be_str "display").
Proof.
  split; [| split; [| split]].
  - destruct (validator_type_errors none_path empty_world) as (H & _).
    apply H. reflexivity.
  - destruct (validator_type_errors int_model empty_world) as (_ & H & _).
    apply H; reflexivity.
  - destruct (validator_type_errors none_timezone empty_world) as (_ & _ & H & _).
    apply H; reflexivity.
  - destruct (validator_type_errors bool_display empty_world) as (_ & _ & _ & H & _).
    apply H; reflexivity.
Defined.

Lemma error_names_first_failing_parameter_witness :
  fst (_verify_inputs (bad_lat, empty_world)) = Raise (must_be_float "lat") /\
  exists (before : list (string * bool)) (name : string)
         (after : list (string * bool)),
    checks bad_lat = (before ++ (name, false) :: after)%list /\
    forallb snd before = true /\
    names name (must_be_float "lat") = true /\
    (exists msg, must_be_float "lat" = TypeError msg
                 \/ must_be_float "lat" = ValueError msg).
Proof.
  split; [reflexivity |].
  apply (error_names_first_failing_parameter bad_lat empty_world). reflexivity.
Defined.

Lemma get_csv_needs_create_url_witness :
  url example = None /\
  _get_csv offline no_nodes own_file refuses (example, empty_world)
  = (Raise (no_attribute "url"), (example, empty_world)).
Proof.
  split; [reflexivity |].
  apply (get_csv_needs_create_url offline no_nodes own_file refuses example empty_world).
  reflexivity.
Defined.


Lemma search_finds_an_assignment_witness :
  search_aDataSet "x = 1; var aDataSet = [['a','b']]; y = [2];" = Some "[['a','b']]" /\
  exists pre body post : string,
    "x = 1; var aDataSet = [['a','b']]; y = [2];"
    = pre ++ "var aDataSet = " ++ "[['a','b']]" ++ ";" ++ post /\
    "[['a','b']]" = "[" ++ body ++ "]" /\
    Str.contains "];" body = false.
Proof.
  split; [reflexivity |].
  apply (search_finds_an_assignment "x = 1; var aDataSet = [['a','b']]; y = [2];").
  reflexivity.
Defined.

Lemma search_fails_without_closing_witness :
  search_aDataSet open_script = None /\
  Str.contains "];" "['a','b']]" = false.
Proof.
  split; [reflexivity |].
  apply (proj1 (search_fails_without_closing open_script) eq_refl
           EmptyString "['a','b']]").
  reflexivity.
Defined.

Lemma script_without_literal_raises_witness :
  Str.contains "];" open_script = false /\
  _get_csv open_page open_soup own_file refuses (with_url example, empty_world)
  = (Raise no_group, (with_url example, sent example_url empty_world)).
Proof.
  split; [reflexivity |].
  apply (script_without_literal_raises open_page open_soup own_file refuses (with_url example)
           empty_world example_url
           (mkResponse 200 ("<script>" ++ open_script ++ "</script>"))
           (Tag "script" [Text open_script]) open_script);
    try reflexivity.
  right. reflexivity.
Defined.

Lemma one_request_per_run_witness :
  requests (snd (snd (getSpotWx gone no_nodes own_file refuses (example, empty_world))))
  = [example_url] /\
  snd (snd (getSpotWx gone no_nodes own_file refuses (bad_path, old_files))) = old_files.
Proof.
  split.
  - destruct (one_request_per_run gone no_nodes own_file refuses example empty_world) as (H & _).
    rewrite H by reflexivity. vm_compute. reflexivity.
  - destruct (one_request_per_run gone no_nodes own_file refuses bad_path old_files) as (_ & H).
    apply H. reflexivity.
Defined.

Lemma run_prints_one_line_or_raises_witness :
  (exists line : string,
     stdout (snd (snd (getSpotWx gone no_nodes own_file refuses (example, empty_world))))
     = ([] ++ [line])%list /\
     (line = saved \/ line = not_found \/
      exists status : Z, status <> 200 /\ line = failed status)) /\
  fst (getSpotWx surrogate_page surrogate_soup one_directory fails_to_encode
         (example, old_files))
  = Raise (Exception "UnicodeEncodeError" "surrogates not allowed") /\
  stdout (snd (snd (getSpotWx surrogate_page surrogate_soup one_directory
                      fails_to_encode (example, old_files))))
  = [].
Proof.
  split; [| split; [vm_compute; reflexivity |]].
  - destruct (run_prints_one_line_or_raises gone no_nodes own_file refuses
                example empty_world) as (_ & H).
    apply H. reflexivity.
  - destruct (run_prints_one_line_or_raises surrogate_page surrogate_soup
                one_directory fails_to_encode example old_files) as (H & _).
    apply (H (Exception "UnicodeEncodeError" "surrogates not allowed")).
    vm_compute. reflexivity.
Defined.

Lemma run_changes_one_file_at_most_witness :
  read_file "out.csv"
    (snd (snd (getSpotWx surrogate_page surrogate_soup one_directory
                 fails_to_encode (example, old_files))))
  = Some (header_line ++ newline) /\
  read_file "notes.txt"
    (snd (snd (getSpotWx surrogate_page surrogate_soup one_directory
                 fails_to_encode (example, old_files))))
  = Some "keep".
Proof.
  split; [vm_compute; reflexivity |].
  destruct (run_changes_one_file_at_most surrogate_page surrogate_soup
              one_directory fails_to_encode example old_files)
    as [H | (path & file & content & _ & P & O & _ & Other)].
  - exfalso. vm_compute in H. discriminate H.
  - injection P as <-. vm_compute in O. injection O as <-.
    rewrite (Other "notes.txt"); [reflexivity | discriminate].
Defined.

Lemma request_exception_propagates_witness :
  valid example = true /\
  getSpotWx offline no_nodes own_file refuses (example, empty_world)
  = (Raise RequestException,
     (with_url example, sent (built_url example) empty_world)).
Proof.
  split; [reflexivity |].
  apply (request_exception_propagates offline no_nodes own_file refuses example empty_world);
    reflexivity.
Defined.

Lemma url_reads_back_witness :
  valid example = true /\
  query_pairs (built_url example)
  = [ ("model", "gfs_pgrb2"); ("lat", "51.0"); ("lon", "-114.0");
      ("tz", "America/Edmonton"); ("display", "table") ].
Proof.
  assert (V : valid example = true) by reflexivity.
  split; [exact V |].
  destruct (url_reads_back example V eq_refl)
    as (mr & code & x & y & tz & d & Hmr & Hx & Hy & Htz & Hd & Hc & Q).
  injection Hmr as <-. injection Hx as <-. injection Hy as <-.
  injection Htz as <-. injection Hd as <-.
  vm_compute in Hc. injection Hc as <-.
  rewrite Q. vm_compute. reflexivity.
Defined.

Lemma coordinate_sent_unless_zero_witness :
  valid equator = true /\
  ~ In "lat" (Query.keys (built_url equator)) /\
  In "lon" (Query.keys (built_url equator)).
Proof.
  assert (V : valid equator = true) by reflexivity.
  split; [exact V |].
  destruct (coordinate_sent_unless_zero equator V eq_refl)
    as (x & y & Hx & Hy & L & M).
  injection Hx as <-. injection Hy as <-. split.
  - intros H. apply L in H. vm_compute in H. discriminate H.
  - apply M. vm_compute. reflexivity.
Defined.
